(** * Numeric-state automation trigger

    A shallow embedding of
    [homeassistant/components/automation/numeric_state.py]: the closure
    created by [async_attach_trigger] (its three containers
    [entities_triggered], [unsub_track_same] and [period]), the callbacks
    [check_numeric_state], [call_action], [state_automation_listener] and
    [async_remove], and the event loop they run on.

    Numbers are rationals, time stamps and time spans are integers
    (one unit of the clock each), entity ids are strings. *)

From Stdlib Require Import QArith.
From stdpp Require Import gmap strings list fin_maps sorting.

#[local] Set Warnings "-clear-no-such-hyp".

Open Scope Z_scope.

(** ** Data model *)

(** A state object of the state machine: the numeric reading of the raw
    state ([None] when the raw state is not a number, as for
    "unavailable") and the context attached to it. *)
Record State := mkState {
  value : option Q;
  context : nat
}.

(** [variables["trigger"]], as built in [check_numeric_state] and in
    [state_automation_listener]. *)
Record Variables := mkVariables {
  v_platform : string;
  v_entity_id : string;
  v_below : option Q;
  v_above : option Q
}.

(** What a call into the template engine ends with: a value, a
    [TemplateError], or an exception of any other class. *)
Inductive Outcome (A : Type) :=
| Returns (a : A)
| RaisesTemplateError
| RaisesOther.

Arguments Returns {A} a.
Arguments RaisesTemplateError {A}.
Arguments RaisesOther {A}.

(** A template renders against the state machine and the variables to a
    text, unless rendering raises. *)
Definition Template : Type :=
  gmap string State → Variables → Outcome string.

(** A value template extracts the number to compare from a state object;
    [None] when rendering fails or the result is not a number. *)
Definition ValueTemplate : Type := Variables → State → option Q.

(** The three shapes [CONF_FOR] may take after schema validation. *)
Inductive DurationSpec :=
| FixedDuration (d : Z)
| DynamicExpression (t : Template)
| StructuredDynamicExpression (kv : list (string * Template)).

(** What a template or a complex template renders to. *)
Inductive Rendered :=
| RStr (s : string)
| RDict (kv : list (string * string)).

Record Config := mkConfig {
  entity_id : list string;
  below : option Q;
  above : option Q;
  time_delta : option DurationSpec;
  value_template : option ValueTemplate;
  platform_type : string;
  automation_name : string
}.

(** The ["for"] entry of the payload: [time_delta] itself when it is
    falsy, [period[entity]] otherwise. *)
Inductive ForValue :=
| ForConfigured (td : option DurationSpec)
| ForPeriod (d : Z).

Record Payload := mkPayload {
  p_platform : string;
  p_entity_id : string;
  p_below : option Q;
  p_above : option Q;
  p_from_state : option State;
  p_to_state : option State;
  p_for : ForValue
}.

(** What the callbacks do to the outside: a template rendered, an error
    logged, the action handed to [hass.async_run_job], a same-state timer
    started, an exception raised by [call_action], and an exception that
    leaves [state_automation_listener] uncaught. *)
Inductive Effect :=
| Render (entity : string)
| LogError (name : string)
| RunJob (p : Payload) (ctx : nat)
| TrackSameState (h : nat) (entity : string) (d : Z)
| Raise (exn : string)
| Propagate (entity : string).

(** A live [async_track_same_state] instance.  Its [action] is the
    [call_action] closure of one listener call, kept as the variables the
    closure captured: [entity], [from_s] and [to_s]. *)
Record Timer := mkTimer {
  handle : nat;
  t_entity : string;
  deadline : Z;
  t_from : option State;
  t_to : option State
}.

(** The clock and state machine of [hass], the subscriptions, the three
    containers of the closure, and the effects so far (newest first, each
    with the time it happened at). *)
Record World := mkWorld {
  now : Z;
  states : gmap string State;
  listening : bool;
  timers : list Timer;
  next_handle : nat;
  entities_triggered : gset string;
  unsub_track_same : gmap string nat;
  period : gmap string Z;
  trace : list (Z * Effect)
}.

Definition set_now (t : Z) (w : World) : World :=
  mkWorld t (states w) (listening w) (timers w) (next_handle w)
          (entities_triggered w) (unsub_track_same w) (period w) (trace w).

Definition set_states (s : gmap string State) (w : World) : World :=
  mkWorld (now w) s (listening w) (timers w) (next_handle w)
          (entities_triggered w) (unsub_track_same w) (period w) (trace w).

Definition set_listening (b : bool) (w : World) : World :=
  mkWorld (now w) (states w) b (timers w) (next_handle w)
          (entities_triggered w) (unsub_track_same w) (period w) (trace w).

Definition set_timers (l : list Timer) (w : World) : World :=
  mkWorld (now w) (states w) (listening w) l (next_handle w)
          (entities_triggered w) (unsub_track_same w) (period w) (trace w).

Definition set_next_handle (n : nat) (w : World) : World :=
  mkWorld (now w) (states w) (listening w) (timers w) n
          (entities_triggered w) (unsub_track_same w) (period w) (trace w).

Definition set_entities_triggered (s : gset string) (w : World) : World :=
  mkWorld (now w) (states w) (listening w) (timers w) (next_handle w)
          s (unsub_track_same w) (period w) (trace w).

Definition set_unsub_track_same (m : gmap string nat) (w : World) : World :=
  mkWorld (now w) (states w) (listening w) (timers w) (next_handle w)
          (entities_triggered w) m (period w) (trace w).

Definition set_period (m : gmap string Z) (w : World) : World :=
  mkWorld (now w) (states w) (listening w) (timers w) (next_handle w)
          (entities_triggered w) (unsub_track_same w) m (trace w).

Definition emit (e : Effect) (w : World) : World :=
  mkWorld (now w) (states w) (listening w) (timers w) (next_handle w)
          (entities_triggered w) (unsub_track_same w) (period w)
          ((now w, e) :: trace w).

(** ** The numeric condition *)

Definition Qltb (x y : Q) : bool :=
  (Qnum x * Z.pos (Qden y) <? Qnum y * Z.pos (Qden x))%Z.

(** Modelled from the spec: the value extraction of
    [condition.async_numeric_state]: through the value template when
    there is one, the raw numeric value of the state otherwise; [None]
    when extraction fails or the result is not a number. *)
Definition extract_value (to_s : State)
    (value_template : option ValueTemplate) (variables : Variables)
    : option Q :=
  match value_template with
  | Some vt => vt variables to_s
  | None => value to_s
  end.

(** Modelled from the spec: [condition.async_numeric_state] of
    [homeassistant/helpers/condition.py], which is not part of the source
    at hand.  No value is a no-match; a value is compared strictly
    against whichever bounds are set. *)
Definition async_numeric_state (to_s : State) (below above : option Q)
    (value_template : option ValueTemplate) (variables : Variables) : bool :=
  match extract_value to_s value_template variables with
  | None => false
  | Some v =>
      match above with None => true | Some a => Qltb a v end
      && match below with None => true | Some b => Qltb v b end
  end.

Definition trigger_variables (cfg : Config) (entity : string) : Variables :=
  mkVariables "numeric_state" entity (below cfg) (above cfg).

(** [check_numeric_state]: True if criteria are now met. *)
Definition check_numeric_state (cfg : Config) (entity : string)
    (from_s to_s : option State) : bool :=
  match to_s with
  | None => false
  | Some st =>
      async_numeric_state st (below cfg) (above cfg) (value_template cfg)
        (trigger_variables cfg entity)
  end.

(** ** Resolving the sustain duration *)

(** Truth value of [time_delta] in [if time_delta:]: [None] and a zero
    [timedelta] are falsy, a [Template] object is truthy, a dict is truthy
    unless it is empty. *)
Definition truthy (td : option DurationSpec) : bool :=
  match td with
  | None => false
  | Some (FixedDuration d) => negb (d =? 0)
  | Some (DynamicExpression _) => true
  | Some (StructuredDynamicExpression kv) =>
      match kv with [] => false | _ :: _ => true end
  end.

(** Modelled from the spec: [cv.positive_timedelta], which is not part
    of the source at hand: a time span is accepted when it is not
    negative. *)
Definition positive_timedelta (d : Z) : option Z :=
  if d <? 0 then None else Some d.

(** Modelled from the spec: [template.render_complex], which is not part
    of the source at hand, on a dict of templates: every entry is
    rendered against the variables, the first one that raises
    aborts. *)
Fixpoint render_complex (kv : list (string * Template))
    (sts : gmap string State) (variables : Variables)
    : Outcome (list (string * string)) :=
  match kv with
  | [] => Returns []
  | (k, t) :: rest =>
      match t sts variables with
      | RaisesTemplateError => RaisesTemplateError
      | RaisesOther => RaisesOther
      | Returns s =>
          match render_complex rest sts variables with
          | RaisesTemplateError => RaisesTemplateError
          | RaisesOther => RaisesOther
          | Returns r => Returns ((k, s) :: r)
          end
      end
  end.

(** What the [try] statement of [state_automation_listener] ends with:
    a period was stored in [period[entity]]; [TemplateError] or
    [vol.Invalid] was raised and caught; or another exception was raised,
    which the [except] clause lets through. *)
Inductive Resolution :=
| Stored (p : Z)
| Caught
| Propagated.

(** Whether resolving renders a template at all. *)
Definition renders (td : DurationSpec) : bool :=
  match td with
  | FixedDuration _ => false
  | _ => true
  end.

(** Timers complete in the order of their deadlines. *)
Definition deadline_le (a b : Timer) : Prop := deadline a ≤ deadline b.

#[global] Instance deadline_le_dec : RelDecision deadline_le.
Proof. intros a b. unfold deadline_le. apply _. Defined.

Section Trigger.

(** [cv.time_period], which is not part of the source at hand: reads a
    rendered value as a time span, [None] standing for [vol.Invalid]. *)
Context (time_period : Rendered → option Z).

(** [vol.All(cv.time_period, cv.positive_timedelta)]. *)
Definition validate_period (r : Rendered) : option Z :=
  match time_period r with
  | None => None
  | Some d => positive_timedelta d
  end.

(** A rendered value through the validator: stored when it is accepted,
    [vol.Invalid] (which is caught) when it is not. *)
Definition validated (r : Rendered) : Resolution :=
  match validate_period r with
  | Some p => Stored p
  | None => Caught
  end.

(** The [try] statement of [state_automation_listener], lines 119 to
    141. *)
Definition try_resolve (td : DurationSpec) (sts : gmap string State)
    (variables : Variables) : Resolution :=
  match td with
  | DynamicExpression t =>
      match t sts variables with
      | Returns s => validated (RStr s)
      | RaisesTemplateError => Caught
      | RaisesOther => Propagated
      end
  | StructuredDynamicExpression kv =>
      match render_complex kv sts variables with
      | Returns r => validated (RDict r)
      | RaisesTemplateError => Caught
      | RaisesOther => Propagated
      end
  | FixedDuration d => Stored d
  end.

(** The period the [try] statement stores in [period[entity]], when it
    stores one. *)
Definition resolve_period (td : DurationSpec) (sts : gmap string State)
    (variables : Variables) : option Z :=
  match try_resolve td sts variables with
  | Stored p => Some p
  | _ => None
  end.

(** ** The callbacks *)

(** [call_action]: builds the payload from the variables of the enclosing
    listener call and hands the action to [hass.async_run_job]. *)
Definition call_action (cfg : Config) (entity : string)
    (from_s to_s : option State) (w : World) : World :=
  let for_value :=
    if negb (truthy (time_delta cfg))
    then Some (ForConfigured (time_delta cfg))
    else ForPeriod <$> period w !! entity in
  match for_value with
  | None => emit (Raise "KeyError") w
  | Some f =>
      match to_s with
      | None => emit (Raise "AttributeError") w
      | Some st =>
          emit (RunJob (mkPayload (platform_type cfg) entity (below cfg)
                          (above cfg) from_s to_s f) (context st)) w
      end
  end.

(** Modelled from the spec: [async_track_same_state] of
    [homeassistant/helpers/event.py], which is not part of the source at
    hand.  It starts a single-shot timer for the period and returns the
    handle that cancels it. *)
Definition async_track_same_state (d : Z) (entity : string)
    (from_s to_s : option State) (w : World) : nat * World :=
  let h := next_handle w in
  let tm := mkTimer h entity (now w + d) from_s to_s in
  (h, emit (TrackSameState h entity d)
        (set_next_handle (S h) (set_timers (timers w ++ [tm]) w))).

(** Modelled from the spec: calling the handle returned by
    [async_track_same_state].  The timer is cancelled; on a timer that has
    fired or was cancelled before nothing happens. *)
Definition clear_listener (h : nat) (w : World) : World :=
  set_timers (filter (λ tm, handle tm ≠ h) (timers w)) w.

(** [state_automation_listener]: listen for state changes and call the
    action. *)
Definition state_automation_listener (cfg : Config) (entity : string)
    (from_s to_s : option State) (w : World) : World :=
  let matching := check_numeric_state cfg entity from_s to_s in
  if negb matching then
    set_entities_triggered (entities_triggered w ∖ {[entity]}) w
  else if decide (entity ∈ entities_triggered w) then w
  else
    let w := set_entities_triggered ({[entity]} ∪ entities_triggered w) w in
    match time_delta cfg with
    | Some td =>
        if truthy (Some td) then
          let variables := trigger_variables cfg entity in
          let w := if renders td then emit (Render entity) w else w in
          match try_resolve td (states w) variables with
          | Stored p =>
              let w := set_period (<[entity := p]> (period w)) w in
              let '(h, w) := async_track_same_state p entity from_s to_s w in
              set_unsub_track_same (<[entity := h]> (unsub_track_same w)) w
          | Caught =>
              let w := emit (LogError (automation_name cfg)) w in
              set_entities_triggered (entities_triggered w ∖ {[entity]}) w
          | Propagated => emit (Propagate entity) w
          end
        else call_action cfg entity from_s to_s w
    | None => call_action cfg entity from_s to_s w
    end.

(** Modelled from the spec: the handle returned by
    [async_track_state_change] ends the subscription; with the
    subscription already ended it does nothing. *)
Definition unsub (w : World) : World := set_listening false w.

(** [async_remove]: remove state listeners. *)
Definition async_remove (w : World) : World :=
  let w := unsub w in
  let w := foldl (λ w h, clear_listener h w) w
             (map_to_list (unsub_track_same w)).*2 in
  set_unsub_track_same ∅ w.

(** [async_attach_trigger] on a state machine holding [sts] at time [t]:
    empty containers and a subscription to the state changes. *)
Definition async_attach_trigger (t : Z) (sts : gmap string State) : World :=
  mkWorld t sts true [] 0 ∅ ∅ ∅ [].

(** ** The event loop *)

(** What reaches the trigger: a state change of an entity, the clock
    moving on, and the caller using the handle it was given. *)
Inductive Input :=
| StateChanged (entity : string) (from_s to_s : option State)
| AdvanceTo (t : Z)
| Remove.

Definition write_state (entity : string) (to_s : option State)
    (w : World) : World :=
  set_states (match to_s with
              | Some st => <[entity := st]> (states w)
              | None => delete entity (states w)
              end) w.

(** Modelled from the spec: while its timer runs, an
    [async_track_same_state] instance follows the state changes of its
    entity and cancels the timer on a change that its check function
    ([check_numeric_state]) answers with a mismatch. *)
Definition same_state_listeners (cfg : Config) (entity : string)
    (from_s to_s : option State) (w : World) : World :=
  set_timers
    (filter (λ tm, t_entity tm ≠ entity
                   ∨ check_numeric_state cfg entity from_s to_s = true)
            (timers w)) w.

(** Modelled from the spec: the timer of an [async_track_same_state]
    instance completes.  The check function is run once more against the
    state the entity has at that moment, and the action is called when it
    still matches. *)
Definition state_for_listener (cfg : Config) (w : World) (tm : Timer)
    : World :=
  let w := set_now (Z.max (now w) (deadline tm)) w in
  let cur := states w !! t_entity tm in
  if check_numeric_state cfg (t_entity tm) cur cur
  then call_action cfg (t_entity tm) (t_from tm) (t_to tm) w
  else w.

(** Modelled from the spec: the timer service of the event loop.  The
    timers that are due at [t] complete one after the other, in the order
    of their deadlines; the others keep running. *)
Definition advance_to (cfg : Config) (t : Z) (w : World) : World :=
  let due := merge_sort deadline_le
               (filter (λ tm, deadline tm ≤ t) (timers w)) in
  let w' := foldl (state_for_listener cfg) w due in
  set_now (Z.max (now w') t)
    (set_timers (filter (λ tm, ¬ deadline tm ≤ t) (timers w')) w').

(** Modelled from the spec: the state-change feed of
    [async_track_state_change].  A state change is written to the state
    machine and then delivered: to the live same-state trackers, and to
    [state_automation_listener] when the subscription is alive and the
    entity is one of [entity_id]. *)
Definition deliver (cfg : Config) (entity : string)
    (from_s to_s : option State) (w : World) : World :=
  let w := write_state entity to_s w in
  let w := same_state_listeners cfg entity from_s to_s w in
  if listening w && bool_decide (entity ∈ entity_id cfg)
  then state_automation_listener cfg entity from_s to_s w
  else w.

Definition step (cfg : Config) (w : World) (i : Input) : World :=
  match i with
  | StateChanged entity from_s to_s => deliver cfg entity from_s to_s w
  | AdvanceTo t => advance_to cfg t w
  | Remove => async_remove w
  end.

Definition run (cfg : Config) (w : World) (script : list Input) : World :=
  foldl (step cfg) w script.

End Trigger.

(** ** Reading a trace *)

(** The entry is an action handed to [hass.async_run_job]. *)
Definition is_job (x : Z * Effect) : Prop :=
  match x.2 with RunJob _ _ => True | _ => False end.

(** The entry is an action for [entity]. *)
Definition is_job_of (entity : string) (x : Z * Effect) : Prop :=
  match x.2 with RunJob p _ => p_entity_id p = entity | _ => False end.

(** The entry is a template rendered to resolve the sustain duration. *)
Definition is_render (x : Z * Effect) : Prop :=
  match x.2 with Render _ => True | _ => False end.

(** The entry is a same-state timer being started. *)
Definition is_track (x : Z * Effect) : Prop :=
  match x.2 with TrackSameState _ _ _ => True | _ => False end.

(** The entry is a failed resolution being logged. *)
Definition is_log_error (x : Z * Effect) : Prop :=
  match x.2 with LogError _ => True | _ => False end.

(** The entry is an exception leaving the listener uncaught. *)
Definition is_propagate (x : Z * Effect) : Prop :=
  match x.2 with Propagate _ => True | _ => False end.

#[global] Instance is_job_dec x : Decision (is_job x).
Proof. unfold is_job. destruct (x.2); apply _. Defined.

#[global] Instance is_job_of_dec entity x : Decision (is_job_of entity x).
Proof. unfold is_job_of. destruct (x.2); apply _. Defined.

#[global] Instance is_render_dec x : Decision (is_render x).
Proof. unfold is_render. destruct (x.2); apply _. Defined.

#[global] Instance is_track_dec x : Decision (is_track x).
Proof. unfold is_track. destruct (x.2); apply _. Defined.

#[global] Instance is_log_error_dec x : Decision (is_log_error x).
Proof. unfold is_log_error. destruct (x.2); apply _. Defined.

#[global] Instance is_propagate_dec x : Decision (is_propagate x).
Proof. unfold is_propagate. destruct (x.2); apply _. Defined.

Definition jobs (tr : list (Z * Effect)) : list (Z * Effect) :=
  filter is_job tr.

Definition jobs_of (entity : string) (tr : list (Z * Effect))
    : list (Z * Effect) :=
  filter (is_job_of entity) tr.

(** The renderings a resolution of [td] at time [t] adds to a trace. *)
Definition rendering (td : DurationSpec) (entity : string) (t : Z)
    : list (Z * Effect) :=
  if renders td then [(t, Render entity)] else [].

(** ** Reading a script *)

(** The input is a state change of [entity] that does not match. *)
Definition leaves_band (cfg : Config) (entity : string) (i : Input) : Prop :=
  match i with
  | StateChanged e from_s to_s =>
      e = entity ∧ check_numeric_state cfg e from_s to_s = false
  | _ => False
  end.

(** The input is a state change of [entity] that matches. *)
Definition enters_band (cfg : Config) (entity : string) (i : Input) : Prop :=
  match i with
  | StateChanged e from_s to_s =>
      e = entity ∧ check_numeric_state cfg e from_s to_s = true
  | _ => False
  end.

(** The input keeps [entity] in band and the trigger attached: it is not
    a mismatching change of [entity] and not the removal. *)
Definition keeps_band (cfg : Config) (entity : string) (i : Input) : Prop :=
  match i with
  | StateChanged e from_s to_s =>
      e = entity → check_numeric_state cfg e from_s to_s = true
  | AdvanceTo _ => True
  | Remove => False
  end.

(** ** The reference condition *)

(** The match condition in the words of the specification: above is
    unset or the value is greater, and below is unset or the value is
    smaller. *)
Definition spec_matches (v : Q) (above below : option Q) : Prop :=
  (above = None ∨ ∃ a, above = Some a ∧ (a < v)%Q)
  ∧ (below = None ∨ ∃ b, below = Some b ∧ (v < b)%Q).

(** ** Well-formed worlds *)

(** Handles of live timers have been handed out, the handle of a live
    timer is the one kept for its entity in [unsub_track_same], and a
    live timer belongs to an entity that is in [entities_triggered]. *)
Definition tracked (w : World) : Prop :=
  ∀ tm, tm ∈ timers w →
    (handle tm < next_handle w)%nat
    ∧ unsub_track_same w !! t_entity tm = Some (handle tm)
    ∧ t_entity tm ∈ entities_triggered w.

(** Live timers of different entities have different handles. *)
Definition handles_apart (w : World) : Prop :=
  ∀ tm1 tm2, tm1 ∈ timers w → tm2 ∈ timers w →
    handle tm1 = handle tm2 → t_entity tm1 = t_entity tm2.

(** What holds of every world the trigger can be in. *)
Definition wf (w : World) : Prop := tracked w ∧ handles_apart w.

(** [entity] has no live same-state timer. *)
Definition quiet (entity : string) (w : World) : Prop :=
  ∀ tm, tm ∈ timers w → t_entity tm ≠ entity.

(** Only the clock and the trace differ between the two worlds. *)
Definition frame (w w' : World) : Prop :=
  states w' = states w ∧ listening w' = listening w
  ∧ timers w' = timers w ∧ next_handle w' = next_handle w
  ∧ entities_triggered w' = entities_triggered w
  ∧ unsub_track_same w' = unsub_track_same w
  ∧ period w' = period w.

(** A reading of the trace that never selects what [call_action] adds. *)
Definition ignores_actions (P : Z * Effect → Prop) : Prop :=
  (∀ t p ctx, ¬ P (t, RunJob p ctx)) ∧ (∀ t exn, ¬ P (t, Raise exn)).

(** Every rendering in the trace belongs to one episode that was started:
    to a timer that was started, to a failure that was logged, or to an
    exception that left the listener. *)
Definition renderings_balanced (tr : list (Z * Effect)) : Prop :=
  length (filter is_render tr)
  = (length (filter is_track tr) + length (filter is_log_error tr)
     + length (filter is_propagate tr))%nat.

(** The entity is armed and waits for its one timer [tm0], with the
    period [d] stored for it, its present state matching, and [js] what
    was fired for it so far. *)
Definition waiting (cfg : Config) (entity : string) (tm0 : Timer) (d : Z)
    (js : list (Z * Effect)) (w : World) : Prop :=
  entity ∈ entities_triggered w
  ∧ filter (λ tm, t_entity tm = entity) (timers w) = [tm0]
  ∧ period w !! entity = Some d
  ∧ check_numeric_state cfg entity (states w !! entity) (states w !! entity)
    = true
  ∧ jobs_of entity (trace w) = js.

(** The entity is armed, its timer is gone, and [js] is what was fired
    for it so far. *)
Definition settled (entity : string) (js : list (Z * Effect)) (w : World)
    : Prop :=
  entity ∈ entities_triggered w ∧ quiet entity w
  ∧ jobs_of entity (trace w) = js.

(** ** Failures of the resolution *)

(** The validator rejects the rendered value: it is not read as a time
    span, or the time span is negative. *)
Definition rejected (time_period : Rendered → option Z) (r : Rendered)
    : Prop :=
  time_period r = None ∨ ∃ d, time_period r = Some d ∧ d < 0.

(** Resolving the duration fails in one of the two ways the listener
    provides for: rendering raises a template error, or the rendered
    value is rejected by the validator. *)
Definition resolution_fails (time_period : Rendered → option Z)
    (td : DurationSpec) (sts : gmap string State) (variables : Variables)
    : Prop :=
  match td with
  | FixedDuration _ => False
  | DynamicExpression t =>
      t sts variables = RaisesTemplateError
      ∨ ∃ s, t sts variables = Returns s ∧ rejected time_period (RStr s)
  | StructuredDynamicExpression kv =>
      render_complex kv sts variables = RaisesTemplateError
      ∨ ∃ r, render_complex kv sts variables = Returns r
          ∧ rejected time_period (RDict r)
  end.

(** ** What holds of every world reached from attaching *)

(** Only configured entities are kept in the three containers. *)
Definition configured (cfg : Config) (w : World) : Prop :=
  (∀ e, e ∈ entities_triggered w → e ∈ entity_id cfg)
  ∧ (∀ e, is_Some (period w !! e) → e ∈ entity_id cfg)
  ∧ (∀ e, is_Some (unsub_track_same w !! e) → e ∈ entity_id cfg).

(** What the closure of a live timer can rely on when it is called:
    [time_delta] is truthy, [period] has an entry for its entity, and its
    [to_s] is a state that matched when it was captured. *)
Definition timers_sound (cfg : Config) (w : World) : Prop :=
  ∀ tm, tm ∈ timers w →
    truthy (time_delta cfg) = true
    ∧ is_Some (period w !! t_entity tm)
    ∧ ∃ st, t_to tm = Some st
        ∧ check_numeric_state cfg (t_entity tm) (t_from tm) (Some st) = true.

(** A trace entry as [call_action] is meant to leave it: an action
    carries the configuration, a configured entity and a new state that
    matched, with the context of that state; nothing was raised. *)
Definition entry_sound (cfg : Config) (x : Z * Effect) : Prop :=
  match x.2 with
  | RunJob p ctx =>
      p_platform p = platform_type cfg
      ∧ p_below p = below cfg ∧ p_above p = above cfg
      ∧ p_entity_id p ∈ entity_id cfg
      ∧ ∃ st, p_to_state p = Some st ∧ ctx = context st
          ∧ check_numeric_state cfg (p_entity_id p) (p_from_state p)
              (Some st) = true
  | Raise _ => False
  | _ => True
  end.

(** A timer was started with the configured fixed duration, or with a
    resolved period that is not negative. *)
Definition started_sound (cfg : Config) (x : Z * Effect) : Prop :=
  match x.2 with
  | TrackSameState _ _ d =>
      match time_delta cfg with
      | Some (FixedDuration d0) => d = d0
      | _ => 0 ≤ d
      end
  | _ => True
  end.

(** At most one timer is live for an entity. *)
Definition single_timer (w : World) : Prop :=
  ∀ e, (length (filter (λ tm, t_entity tm = e) (timers w)) ≤ 1)%nat.

(** While the subscription is alive, the present state of every armed
    entity matches. *)
Definition armed_matches (cfg : Config) (w : World) : Prop :=
  listening w = true →
  ∀ e, e ∈ entities_triggered w →
    check_numeric_state cfg e (states w !! e) (states w !! e) = true.

Definition sound (cfg : Config) (w : World) : Prop :=
  wf w ∧ configured cfg w ∧ timers_sound cfg w
  ∧ Forall (entry_sound cfg) (trace w)
  ∧ Forall (started_sound cfg) (trace w)
  ∧ single_timer w ∧ armed_matches cfg w.

#[global] Instance enters_band_dec cfg entity i :
  Decision (enters_band cfg entity i).
Proof. destruct i; cbn; apply _. Defined.

(** What of the world belongs to [entity]: whether it is armed, its
    period, its timer handle, its live timers and what was fired for
    it. *)
Definition entity_view (entity : string) (w : World)
    : bool * option Z * option nat * list Timer * list (Z * Effect) :=
  (bool_decide (entity ∈ entities_triggered w),
   period w !! entity,
   unsub_track_same w !! entity,
   filter (λ tm, t_entity tm = entity) (timers w),
   jobs_of entity (trace w)).

(** The entry is an exception raised out of [call_action]. *)
Definition is_raise (x : Z * Effect) : Prop :=
  match x.2 with Raise _ => True | _ => False end.

#[global] Instance is_raise_dec x : Decision (is_raise x).
Proof. unfold is_raise. destruct (x.2); apply _. Defined.

(** Every live timer was started, as the trace records, with the period
    now stored for its entity, and its deadline lies that period after
    its start. *)
Definition timers_started (w : World) : Prop :=
  ∀ tm, tm ∈ timers w →
    ∃ t0 p, period w !! t_entity tm = Some p
      ∧ (t0, TrackSameState (handle tm) (t_entity tm) p) ∈ trace w
      ∧ deadline tm = t0 + p.

(** Every action that carries a period was fired at least that period
    after a timer with that period was started for its entity. *)
Definition jobs_timed (tr : list (Z * Effect)) : Prop :=
  ∀ at_ pl ctx d,
    (at_, RunJob pl ctx) ∈ tr → p_for pl = ForPeriod d →
    ∃ t0 h, (t0, TrackSameState h (p_entity_id pl) d) ∈ tr ∧ t0 + d ≤ at_.

(** ** Scenarios *)

Module Scenario.

Definition reading (n : Z) (ctx : nat) : option State :=
  Some (mkState (Some (inject_Z n)) ctx).

(** A [cv.time_period] that reads decimal seconds of a few texts. *)
Definition time_period (r : Rendered) : option Z :=
  match r with
  | RStr "60" => Some 60
  | RStr "30" => Some 30
  | RStr "0" => Some 0
  | RStr "-5" => Some (-5)
  | _ => None
  end.

(** above=10, no below, no duration. *)
Definition above_10 : Config :=
  mkConfig ["sensor.t"] None (Some (inject_Z 10)) None None
           "numeric_state" "heating".

(** above=10 held for 60. *)
Definition above_10_for_60 : Config :=
  mkConfig ["sensor.t"] None (Some (inject_Z 10)) (Some (FixedDuration 60))
           None "numeric_state" "heating".

(** above=10 with a zero duration. *)
Definition above_10_for_0 : Config :=
  mkConfig ["sensor.t"] None (Some (inject_Z 10)) (Some (FixedDuration 0))
           None "numeric_state" "heating".

(** A duration template written for the trigger on [sensor.t] above 10:
    with these trigger variables it reads the delay from another entity,
    60 while [input.delay] is below 1 and 30 once it is not; it raises a
    template error when that entity is missing, and for any other trigger
    variables. *)
Definition delay_template : Template :=
  λ sts variables,
    if bool_decide (v_platform variables = "numeric_state")
       && bool_decide (v_entity_id variables = "sensor.t")
       && match v_above variables with
          | Some a => Qeq_bool a (inject_Z 10)
          | None => false
          end
       && match v_below variables with None => true | Some _ => false end
    then
      match sts !! "input.delay" with
      | Some st =>
          match value st with
          | Some q =>
              if Qltb q (inject_Z 1) then Returns "60" else Returns "30"
          | None => Returns "soon"
          end
      | None => RaisesTemplateError
      end
    else RaisesTemplateError.

Definition above_10_for_template : Config :=
  mkConfig ["sensor.t"] None (Some (inject_Z 10))
           (Some (DynamicExpression delay_template))
           None "numeric_state" "heating".

(** A duration template that always renders a zero delay. *)
Definition above_10_for_zero_template : Config :=
  mkConfig ["sensor.t"] None (Some (inject_Z 10))
           (Some (DynamicExpression (λ _ _, Returns "0")))
           None "numeric_state" "heating".

(** A duration template that never renders: a template error each
    time. *)
Definition above_10_for_broken_template : Config :=
  mkConfig ["sensor.t"] None (Some (inject_Z 10))
           (Some (DynamicExpression (λ _ _, RaisesTemplateError)))
           None "numeric_state" "heating".

(** A duration template whose rendering raises an exception that is not
    a template error. *)
Definition above_10_for_raising_template : Config :=
  mkConfig ["sensor.t"] None (Some (inject_Z 10))
           (Some (DynamicExpression (λ _ _, RaisesOther)))
           None "numeric_state" "heating".

Definition start : World := async_attach_trigger 0 ∅.

(** The sensor has gone 5 → 15 under above=10 held for 60: it is armed
    and its timer runs towards 60. *)
Definition armed : World :=
  run time_period above_10_for_60 start
    [ StateChanged "sensor.t" (reading 5 0) (reading 15 1) ].

Definition armed_timer : Timer :=
  mkTimer 0 "sensor.t" 60 (reading 5 0) (reading 15 1).

(** The delay is 0, the sensor goes 5 → 15 → 8, then the delay is
    raised to 5. *)
Definition delay_raised : list Input :=
  [ StateChanged "input.delay" None (reading 0 0);
    StateChanged "sensor.t" (reading 5 1) (reading 15 2);
    StateChanged "sensor.t" (reading 15 2) (reading 8 3);
    StateChanged "input.delay" (reading 0 0) (reading 5 4) ].

(** 5 → 15 → 8 → 20. *)
Definition up_down_up : list Input :=
  [ StateChanged "sensor.t" (reading 5 0) (reading 15 1);
    StateChanged "sensor.t" (reading 15 1) (reading 8 2);
    StateChanged "sensor.t" (reading 8 2) (reading 20 3) ].

(** 5 → 15 at 0, 15 → 16 at 30, and the clock reaching 60. *)
Definition drift_in_band : list Input :=
  [ StateChanged "sensor.t" (reading 5 0) (reading 15 1);
    AdvanceTo 30;
    StateChanged "sensor.t" (reading 15 1) (reading 16 2);
    AdvanceTo 60 ].

End Scenario.

(** * Properties *)

(** ** The numeric condition *)

Lemma Qltb_lt (x y : Q) : Qltb x y = true ↔ (x < y)%Q.
Proof. unfold Qltb, Qlt. apply Z.ltb_lt. Qed.

Lemma Qltb_irrefl (x y : Q) : (x == y)%Q → Qltb x y = false.
Proof.
  intros E. destruct (Qltb x y) eqn:H; [|done].
  apply Qltb_lt in H. rewrite E in H. by apply Qlt_irrefl in H.
Qed.

Lemma above_bound_spec (above : option Q) (v : Q) :
  match above with None => true | Some a => Qltb a v end = true
  ↔ above = None ∨ ∃ a, above = Some a ∧ (a < v)%Q.
Proof.
  destruct above as [a|]; [rewrite Qltb_lt|]; split; eauto.
  intros [?|(a' & ? & ?)]; by simplify_eq.
Qed.

Lemma below_bound_spec (below : option Q) (v : Q) :
  match below with None => true | Some b => Qltb v b end = true
  ↔ below = None ∨ ∃ b, below = Some b ∧ (v < b)%Q.
Proof.
  destruct below as [b|]; [rewrite Qltb_lt|]; split; eauto.
  intros [?|(b' & ? & ?)]; by simplify_eq.
Qed.

Lemma async_numeric_state_spec st below above vt vars v :
  extract_value st vt vars = Some v →
  async_numeric_state st below above vt vars = true
  ↔ spec_matches v above below.
Proof.
  intros Hv. unfold async_numeric_state, spec_matches. rewrite Hv.
  by rewrite andb_true_iff, above_bound_spec, below_bound_spec.
Qed.

(** C3. [check_numeric_state] is the reference condition: an absent
    state never matches, a state without a comparison value never
    matches, and a state with comparison value [v] matches exactly when
    above is unset or [v] is greater and below is unset or [v] is
    smaller; a value equal to a bound does not match. *)
Theorem check_numeric_state_reference cfg entity from_s :
  check_numeric_state cfg entity from_s None = false
  ∧ (∀ st,
       extract_value st (value_template cfg) (trigger_variables cfg entity)
         = None →
       check_numeric_state cfg entity from_s (Some st) = false)
  ∧ (∀ st v,
       extract_value st (value_template cfg) (trigger_variables cfg entity)
         = Some v →
       (check_numeric_state cfg entity from_s (Some st) = true
        ↔ spec_matches v (above cfg) (below cfg))
       ∧ (∀ a, above cfg = Some a → (v == a)%Q →
            check_numeric_state cfg entity from_s (Some st) = false)
       ∧ (∀ b, below cfg = Some b → (v == b)%Q →
            check_numeric_state cfg entity from_s (Some st) = false)).
Proof.
  split; [done|]. split.
  - intros st Hv. cbn. unfold async_numeric_state. by rewrite Hv.
  - intros st v Hv. split; [|split].
    + cbn. by apply async_numeric_state_spec.
    + intros a Ha E. cbn. unfold async_numeric_state. rewrite Hv, Ha.
      rewrite (Qltb_irrefl a v); [done|]. by symmetry.
    + intros b Hb E. cbn. unfold async_numeric_state. rewrite Hv, Hb.
      rewrite (Qltb_irrefl v b E). apply andb_false_r.
Qed.

(** The reference condition at work: with above=10 a reading of 15
    matches and a reading of exactly 10 does not. *)
Lemma check_numeric_state_reference_witness :
  (check_numeric_state Scenario.above_10 "sensor.t" None
     (Scenario.reading 15 1) = true
   ↔ spec_matches (inject_Z 15) (Some (inject_Z 10)) None)
  ∧ check_numeric_state Scenario.above_10 "sensor.t" None
      (Scenario.reading 10 1) = false.
Proof.
  pose proof (check_numeric_state_reference Scenario.above_10 "sensor.t" None)
    as (_ & _ & H).
  split.
  - apply (H (mkState (Some (inject_Z 15)) 1) (inject_Z 15)). reflexivity.
  - destruct (H (mkState (Some (inject_Z 10)) 1) (inject_Z 10))
      as (_ & Ha & _); [reflexivity|].
    apply (Ha (inject_Z 10)); reflexivity.
Defined.

(** ** One call of the listener, case by case *)

Section Listener.

Context (time_period : Rendered → option Z) (cfg : Config).

Lemma listener_mismatch entity from_s to_s w :
  check_numeric_state cfg entity from_s to_s = false →
  state_automation_listener time_period cfg entity from_s to_s w
  = set_entities_triggered (entities_triggered w ∖ {[entity]}) w.
Proof. intros H. unfold state_automation_listener. by rewrite H. Qed.

Lemma listener_armed entity from_s to_s w :
  check_numeric_state cfg entity from_s to_s = true →
  entity ∈ entities_triggered w →
  state_automation_listener time_period cfg entity from_s to_s w = w.
Proof.
  intros H Hin. unfold state_automation_listener. rewrite H. cbn.
  by rewrite decide_True.
Qed.

Lemma listener_immediate entity from_s st w :
  check_numeric_state cfg entity from_s (Some st) = true →
  entity ∉ entities_triggered w →
  truthy (time_delta cfg) = false →
  state_automation_listener time_period cfg entity from_s (Some st) w
  = emit (RunJob (mkPayload (platform_type cfg) entity (below cfg)
                    (above cfg) from_s (Some st)
                    (ForConfigured (time_delta cfg))) (context st))
      (set_entities_triggered ({[entity]} ∪ entities_triggered w) w).
Proof.
  intros H Hin Hf. unfold state_automation_listener. rewrite H.
  cbn [negb]. rewrite decide_False by done.
  unfold call_action. rewrite Hf. cbn [negb].
  destruct (time_delta cfg) as [td|] eqn:Htd; [|done].
  by rewrite Hf.
Qed.

Lemma resolve_period_stored td sts variables p :
  resolve_period time_period td sts variables = Some p
  ↔ try_resolve time_period td sts variables = Stored p.
Proof.
  unfold resolve_period.
  destruct (try_resolve time_period td sts variables); split; congruence.
Qed.

Lemma validate_period_rejected r :
  validate_period time_period r = None ↔ rejected time_period r.
Proof.
  unfold validate_period, rejected, positive_timedelta.
  destruct (time_period r) as [d|]; [|by split; [left|]].
  destruct (d <? 0) eqn:Hd.
  - apply Z.ltb_lt in Hd. split; [|done]. intros _. right. eauto.
  - apply Z.ltb_ge in Hd. split; [done|].
    intros [?|(d' & [= <-] & ?)]; [done|lia].
Qed.

Lemma validated_caught r :
  validated time_period r = Caught ↔ rejected time_period r.
Proof.
  rewrite <-validate_period_rejected. unfold validated.
  destruct (validate_period time_period r); split; congruence.
Qed.

(** The [except] clause catches exactly the failures of the
    resolution. *)
Lemma try_resolve_caught td sts variables :
  try_resolve time_period td sts variables = Caught
  ↔ resolution_fails time_period td sts variables.
Proof.
  destruct td as [d|t|kv]; cbn.
  - split; [congruence|tauto].
  - destruct (t sts variables) as [s| |].
    + rewrite validated_caught. split; [eauto|].
      by intros [?|(s' & [= <-] & ?)].
    + split; [by left|done].
    + split; [congruence|]. by intros [?|(s' & ? & ?)].
  - destruct (render_complex kv sts variables) as [r| |].
    + rewrite validated_caught. split; [eauto|].
      by intros [?|(r' & [= <-] & ?)].
    + split; [by left|done].
    + split; [congruence|]. by intros [?|(r' & ? & ?)].
Qed.

Lemma listener_arm entity from_s to_s w td p :
  check_numeric_state cfg entity from_s to_s = true →
  entity ∉ entities_triggered w →
  time_delta cfg = Some td → truthy (Some td) = true →
  resolve_period time_period td (states w) (trigger_variables cfg entity)
    = Some p →
  state_automation_listener time_period cfg entity from_s to_s w
  = mkWorld (now w) (states w) (listening w)
      (timers w ++ [mkTimer (next_handle w) entity (now w + p) from_s to_s])
      (S (next_handle w))
      ({[entity]} ∪ entities_triggered w)
      (<[entity := next_handle w]> (unsub_track_same w))
      (<[entity := p]> (period w))
      ((now w, TrackSameState (next_handle w) entity p)
         :: rendering td entity (now w) ++ trace w).
Proof.
  intros H Hin Htd Ht Hp. apply resolve_period_stored in Hp.
  unfold state_automation_listener, rendering.
  rewrite H. cbn [negb]. rewrite decide_False by done. rewrite Htd, Ht.
  destruct (renders td); cbn; rewrite Hp; done.
Qed.

Lemma listener_abort entity from_s to_s w td :
  check_numeric_state cfg entity from_s to_s = true →
  entity ∉ entities_triggered w →
  time_delta cfg = Some td → truthy (Some td) = true →
  try_resolve time_period td (states w) (trigger_variables cfg entity)
    = Caught →
  state_automation_listener time_period cfg entity from_s to_s w
  = mkWorld (now w) (states w) (listening w) (timers w) (next_handle w)
      (entities_triggered w) (unsub_track_same w) (period w)
      ((now w, LogError (automation_name cfg))
         :: rendering td entity (now w) ++ trace w).
Proof.
  intros H Hin Htd Ht Hp. unfold state_automation_listener, rendering.
  rewrite H. cbn [negb]. rewrite decide_False by done. rewrite Htd, Ht.
  assert (({[entity]} ∪ entities_triggered w) ∖ {[entity]}
          = entities_triggered w) as E by set_solver.
  destruct (renders td); cbn; rewrite Hp; cbn; by rewrite E.
Qed.

(** An exception the [except] clause does not catch leaves the listener
    after line 107 has added the entity: the entity stays in
    [entities_triggered], nothing is logged and no timer is started. *)
Lemma listener_propagates entity from_s to_s w td :
  check_numeric_state cfg entity from_s to_s = true →
  entity ∉ entities_triggered w →
  time_delta cfg = Some td → truthy (Some td) = true →
  try_resolve time_period td (states w) (trigger_variables cfg entity)
    = Propagated →
  state_automation_listener time_period cfg entity from_s to_s w
  = mkWorld (now w) (states w) (listening w) (timers w) (next_handle w)
      ({[entity]} ∪ entities_triggered w) (unsub_track_same w) (period w)
      ((now w, Propagate entity)
         :: rendering td entity (now w) ++ trace w).
Proof.
  intros H Hin Htd Ht Hp. unfold state_automation_listener, rendering.
  rewrite H. cbn [negb]. rewrite decide_False by done. rewrite Htd, Ht.
  destruct (renders td); cbn; rewrite Hp; done.
Qed.

End Listener.

(** ** Timers completing *)

Section Completion.

Context (cfg : Config).

Lemma frame_refl w : frame w w.
Proof. by repeat split. Qed.

Lemma frame_trans w1 w2 w3 : frame w1 w2 → frame w2 w3 → frame w1 w3.
Proof.
  unfold frame. intros (?&?&?&?&?&?&?) (?&?&?&?&?&?&?).
  repeat split; congruence.
Qed.

Lemma frame_emit x w : frame w (emit x w).
Proof. by repeat split. Qed.

Lemma frame_set_now t w : frame w (set_now t w).
Proof. by repeat split. Qed.

Lemma call_action_frame entity from_s to_s w :
  frame w (call_action cfg entity from_s to_s w).
Proof.
  unfold call_action.
  destruct (if negb _ then _ else _); [destruct to_s|]; apply frame_emit.
Qed.

Lemma call_action_now entity from_s to_s w :
  now (call_action cfg entity from_s to_s w) = now w.
Proof.
  unfold call_action.
  by destruct (if negb _ then _ else _); [destruct to_s|].
Qed.

(** An action called for one entity is no action for another. *)
Lemma call_action_other entity e from_s to_s w :
  entity ≠ e →
  jobs_of e (trace (call_action cfg entity from_s to_s w))
  = jobs_of e (trace w).
Proof.
  intros Hne. unfold call_action, jobs_of.
  destruct (if negb _ then _ else _); [destruct to_s|]; cbn [trace emit];
    rewrite filter_cons_False; cbn; tauto.
Qed.

(** With a truthy [time_delta] the payload reads [period[entity]]. *)
Lemma call_action_period entity from_s st w d :
  truthy (time_delta cfg) = true →
  period w !! entity = Some d →
  call_action cfg entity from_s (Some st) w
  = emit (RunJob (mkPayload (platform_type cfg) entity (below cfg)
                    (above cfg) from_s (Some st) (ForPeriod d))
            (context st)) w.
Proof. intros Ht Hp. unfold call_action. by rewrite Ht, Hp. Qed.

Lemma state_for_listener_frame w tm :
  frame w (state_for_listener cfg w tm).
Proof.
  unfold state_for_listener. destruct (check_numeric_state _ _ _ _).
  - eapply frame_trans; [apply frame_set_now|apply call_action_frame].
  - apply frame_set_now.
Qed.

Lemma state_for_listener_now w tm :
  now (state_for_listener cfg w tm) = Z.max (now w) (deadline tm).
Proof.
  unfold state_for_listener. destruct (check_numeric_state _ _ _ _); [|done].
  by rewrite call_action_now.
Qed.

Lemma state_for_listener_other e w tm :
  t_entity tm ≠ e →
  jobs_of e (trace (state_for_listener cfg w tm)) = jobs_of e (trace w).
Proof.
  intros Hne. unfold state_for_listener.
  destruct (check_numeric_state _ _ _ _); [|done].
  by rewrite call_action_other.
Qed.

Lemma completions_frame l w :
  frame w (foldl (state_for_listener cfg) w l).
Proof.
  revert w. induction l as [|tm l IH]; intros w; cbn; [apply frame_refl|].
  eapply frame_trans; [apply state_for_listener_frame|apply IH].
Qed.

Lemma completions_now l w :
  now w ≤ now (foldl (state_for_listener cfg) w l).
Proof.
  revert w. induction l as [|tm l IH]; intros w; cbn; [lia|].
  specialize (IH (state_for_listener cfg w tm)).
  rewrite state_for_listener_now in IH. lia.
Qed.

(** Timers of other entities completing are no action for [e]. *)
Lemma completions_other e l w :
  (∀ tm, tm ∈ l → t_entity tm ≠ e) →
  jobs_of e (trace (foldl (state_for_listener cfg) w l))
  = jobs_of e (trace w).
Proof.
  revert w. induction l as [|tm l IH]; intros w H; cbn; [done|].
  rewrite IH by (intros; apply H; set_solver).
  apply state_for_listener_other, H. set_solver.
Qed.

(** The one timer of [e] completing while [e] still matches is one
    action for [e], with the variables its closure captured and the
    period now stored for [e], at or after its deadline. *)
Lemma completions_one e l w tm0 st d :
  filter (λ tm, t_entity tm = e) l = [tm0] →
  t_to tm0 = Some st →
  truthy (time_delta cfg) = true →
  period w !! e = Some d →
  check_numeric_state cfg e (states w !! e) (states w !! e) = true →
  ∃ at_,
    jobs_of e (trace (foldl (state_for_listener cfg) w l))
    = (at_, RunJob (mkPayload (platform_type cfg) e (below cfg) (above cfg)
                      (t_from tm0) (Some st) (ForPeriod d)) (context st))
        :: jobs_of e (trace w)
    ∧ deadline tm0 ≤ at_.
Proof.
  revert w. induction l as [|tm l IH]; intros w Hl Hto Ht Hp Hc; [done|].
  cbn [foldl]. destruct (decide (t_entity tm = e)) as [He|He].
  - rewrite filter_cons_True in Hl by done. injection Hl as -> Hl.
    exists (Z.max (now w) (deadline tm0)). split; [|lia].
    rewrite completions_other.
    + unfold state_for_listener. rewrite He. cbn [states set_now].
      rewrite Hc, Hto. erewrite call_action_period by done.
      cbn [trace emit set_now now]. unfold jobs_of.
      by rewrite filter_cons_True.
    + intros tm Htm Heq.
      assert (tm ∈ filter (λ tm, t_entity tm = e) l) as Hin
        by (by apply list_elem_of_filter).
      rewrite Hl in Hin. by apply elem_of_nil in Hin.
  - rewrite filter_cons_False in Hl by done.
    pose proof (state_for_listener_frame w tm) as (Hs&_&_&_&_&_&Hpe).
    destruct (IH (state_for_listener cfg w tm)) as (at_ & Hj & Hat);
      [done|done|done|by rewrite Hpe|by rewrite Hs|].
    exists at_. split; [|done].
    by rewrite Hj, state_for_listener_other.
Qed.

End Completion.

(** ** One input of the event loop *)

Section Loop.

Context (time_period : Rendered → option Z) (cfg : Config).

(** The five ways through [state_automation_listener]. *)
Lemma listener_cases entity from_s to_s w :
  let w' := state_automation_listener time_period cfg entity from_s to_s w in
  (check_numeric_state cfg entity from_s to_s = false
   ∧ w' = set_entities_triggered (entities_triggered w ∖ {[entity]}) w)
  ∨ (check_numeric_state cfg entity from_s to_s = true
     ∧ entity ∈ entities_triggered w ∧ w' = w)
  ∨ (check_numeric_state cfg entity from_s to_s = true
     ∧ (entity ∉ entities_triggered w)
     ∧ truthy (time_delta cfg) = false
     ∧ (∃ st, to_s = Some st
       ∧ w' = emit (RunJob (mkPayload (platform_type cfg) entity (below cfg)
                              (above cfg) from_s (Some st)
                              (ForConfigured (time_delta cfg))) (context st))
                (set_entities_triggered
                   ({[entity]} ∪ entities_triggered w) w)))
  ∨ (check_numeric_state cfg entity from_s to_s = true
     ∧ (entity ∉ entities_triggered w)
     ∧ (∃ td p, time_delta cfg = Some td ∧ truthy (Some td) = true
       ∧ resolve_period time_period td (states w)
           (trigger_variables cfg entity) = Some p
       ∧ w' = mkWorld (now w) (states w) (listening w)
                (timers w
                   ++ [mkTimer (next_handle w) entity (now w + p)
                         from_s to_s])
                (S (next_handle w))
                ({[entity]} ∪ entities_triggered w)
                (<[entity := next_handle w]> (unsub_track_same w))
                (<[entity := p]> (period w))
                ((now w, TrackSameState (next_handle w) entity p)
                   :: rendering td entity (now w) ++ trace w)))
  ∨ (check_numeric_state cfg entity from_s to_s = true
     ∧ (entity ∉ entities_triggered w)
     ∧ (∃ td, time_delta cfg = Some td ∧ truthy (Some td) = true
       ∧ try_resolve time_period td (states w)
           (trigger_variables cfg entity) = Caught
       ∧ w' = mkWorld (now w) (states w) (listening w) (timers w)
                (next_handle w) (entities_triggered w) (unsub_track_same w)
                (period w)
                ((now w, LogError (automation_name cfg))
                   :: rendering td entity (now w) ++ trace w)))
  ∨ (check_numeric_state cfg entity from_s to_s = true
     ∧ (entity ∉ entities_triggered w)
     ∧ (∃ td, time_delta cfg = Some td ∧ truthy (Some td) = true
       ∧ try_resolve time_period td (states w)
           (trigger_variables cfg entity) = Propagated
       ∧ w' = mkWorld (now w) (states w) (listening w) (timers w)
                (next_handle w) ({[entity]} ∪ entities_triggered w)
                (unsub_track_same w) (period w)
                ((now w, Propagate entity)
                   :: rendering td entity (now w) ++ trace w))).
Proof.
  intros w'. subst w'.
  destruct (check_numeric_state cfg entity from_s to_s) eqn:Hc.
  2:{ left. split; [done|]. by apply listener_mismatch. }
  right. destruct (decide (entity ∈ entities_triggered w)) as [Hin|Hin].
  { left. split; [done|]. split; [done|]. by apply listener_armed. }
  right. destruct (truthy (time_delta cfg)) eqn:Ht.
  - right. destruct (time_delta cfg) as [td|] eqn:Htd; [|done].
    destruct (try_resolve time_period td (states w)
                (trigger_variables cfg entity)) as [p| |] eqn:Hp.
    + left. split; [done|]. split; [done|]. exists td, p.
      repeat split; try done; [by apply resolve_period_stored|].
      apply listener_arm; try done. by apply resolve_period_stored.
    + right. left. split; [done|]. split; [done|]. exists td.
      repeat split; try done. by apply listener_abort.
    + right. right. split; [done|]. split; [done|]. exists td.
      repeat split; try done. by apply listener_propagates.
  - left. destruct to_s as [st|]; [|done].
    split; [done|]. split; [done|]. split; [done|]. exists st.
    split; [done|]. by apply listener_immediate.
Qed.

Lemma same_state_listeners_match entity from_s to_s w :
  check_numeric_state cfg entity from_s to_s = true →
  same_state_listeners cfg entity from_s to_s w = w.
Proof.
  intros H. unfold same_state_listeners.
  rewrite (list_filter_iff _ (λ _, True)) by (intros; split; auto).
  replace (filter (λ _, True) (timers w)) with (timers w); [by destruct w|].
  induction (timers w) as [|tm l IH]; [done|].
  by rewrite filter_cons_True, <-IH.
Qed.

Lemma same_state_listeners_mismatch entity from_s to_s w :
  check_numeric_state cfg entity from_s to_s = false →
  same_state_listeners cfg entity from_s to_s w
  = set_timers (filter (λ tm, t_entity tm ≠ entity) (timers w)) w.
Proof.
  intros H. unfold same_state_listeners. f_equal.
  apply list_filter_iff. intros tm. rewrite H. naive_solver.
Qed.

Lemma same_state_listeners_timers entity from_s to_s w tm :
  tm ∈ timers (same_state_listeners cfg entity from_s to_s w) →
  tm ∈ timers w.
Proof. cbn. rewrite list_elem_of_filter. tauto. Qed.

(** The handles [async_remove] calls, in the order it calls them. *)
Lemma clear_listeners_timers hs w :
  foldl (λ w h, clear_listener h w) w hs
  = set_timers (filter (λ tm, handle tm ∉ hs) (timers w)) w.
Proof.
  revert w. induction hs as [|h hs IH]; intros w; cbn [foldl].
  - rewrite (list_filter_iff _ (λ _, True)).
    + replace (filter (λ _, True) (timers w)) with (timers w);
        [by destruct w|].
      induction (timers w) as [|tm l IHl]; [done|].
      by rewrite filter_cons_True, <-IHl.
    + intros tm. split; [done|]. intros _. apply not_elem_of_nil.
  - rewrite IH. unfold clear_listener, set_timers. cbn. f_equal.
    rewrite list_filter_filter. apply list_filter_iff. intros tm.
    rewrite not_elem_of_cons. tauto.
Qed.

Lemma async_remove_eq w :
  async_remove w
  = mkWorld (now w) (states w) false
      (filter (λ tm, handle tm ∉ (map_to_list (unsub_track_same w)).*2)
         (timers w))
      (next_handle w) (entities_triggered w) ∅ (period w) (trace w).
Proof. unfold async_remove. by rewrite clear_listeners_timers. Qed.

Lemma advance_to_frame t w :
  states (advance_to cfg t w) = states w
  ∧ listening (advance_to cfg t w) = listening w
  ∧ timers (advance_to cfg t w) = filter (λ tm, ¬ deadline tm ≤ t) (timers w)
  ∧ next_handle (advance_to cfg t w) = next_handle w
  ∧ entities_triggered (advance_to cfg t w) = entities_triggered w
  ∧ unsub_track_same (advance_to cfg t w) = unsub_track_same w
  ∧ period (advance_to cfg t w) = period w.
Proof.
  unfold advance_to.
  pose proof (completions_frame cfg
    (merge_sort deadline_le (filter (λ tm, deadline tm ≤ t) (timers w))) w)
    as (?&?&Ht&?&?&?&?).
  cbn. by rewrite Ht.
Qed.

Lemma advance_to_trace t w :
  trace (advance_to cfg t w)
  = trace (foldl (state_for_listener cfg) w
             (merge_sort deadline_le
                (filter (λ tm, deadline tm ≤ t) (timers w)))).
Proof. done. Qed.

End Loop.

(** ** Entities without a live timer, and well-formed worlds *)

Section Invariants.

Context (time_period : Rendered → option Z) (cfg : Config).

Lemma filter_none {A} (P : A → Prop) `{!∀ x, Decision (P x)} (l : list A) :
  (∀ x, x ∈ l → ¬ P x) → filter P l = [].
Proof.
  induction l as [|x l IH]; intros Hl; [done|].
  rewrite filter_cons_False by (apply Hl; set_solver).
  apply IH. intros y Hy. apply Hl. set_solver.
Qed.

Lemma jobs_of_rendering e td entity t tr :
  jobs_of e (rendering td entity t ++ tr) = jobs_of e tr.
Proof.
  unfold rendering, jobs_of. destruct (renders td); [|done].
  cbn [app]. by rewrite filter_cons_False by (cbn; tauto).
Qed.

Lemma jobs_of_skip e t x tr :
  ¬ is_job_of e (t, x) → jobs_of e ((t, x) :: tr) = jobs_of e tr.
Proof. intros H. unfold jobs_of. by rewrite filter_cons_False. Qed.

(** A listener call that starts no episode for [e] leaves [e] without a
    timer and without a new action. *)
Lemma listener_quiet e entity from_s to_s w :
  quiet e w →
  (entity = e → check_numeric_state cfg entity from_s to_s = true →
   e ∈ entities_triggered w) →
  quiet e (state_automation_listener time_period cfg entity from_s to_s w)
  ∧ jobs_of e (trace (state_automation_listener time_period cfg entity
                        from_s to_s w))
    = jobs_of e (trace w).
Proof.
  intros Hq Harm.
  destruct (listener_cases time_period cfg entity from_s to_s w)
    as [(Hc & ->)|[(Hc & Hin & ->)|[(Hc & Hin & Ht & st & -> & ->)
       |[(Hc & Hin & td & p & Htd & Ht & Hp & ->)
        |[(Hc & Hin & td & Htd & Ht & Hp & ->)
          |(Hc & Hin & td & Htd & Ht & Hp & ->)]]]]]; try done.
  - assert (entity ≠ e) as Hne by (intros ->; by apply Hin, Harm).
    split; [done|]. cbn [trace emit set_entities_triggered].
    by apply jobs_of_skip.
  - assert (entity ≠ e) as Hne by (intros ->; by apply Hin, Harm).
    split.
    + intros tm. cbn [timers]. rewrite elem_of_app, list_elem_of_singleton.
      intros [Htm| ->]; [by apply Hq|done].
    + cbn [trace]. rewrite jobs_of_skip by (cbn; tauto).
      apply jobs_of_rendering.
  - split; [done|]. cbn [trace]. rewrite jobs_of_skip by (cbn; tauto).
    apply jobs_of_rendering.
  - split; [done|]. cbn [trace]. rewrite jobs_of_skip by (cbn; tauto).
    apply jobs_of_rendering.
Qed.

(** An entity without a live timer gets neither a timer nor an action
    from an input, unless the input starts an episode for it. *)
Lemma step_quiet e w i :
  quiet e w →
  (enters_band cfg e i → e ∈ entities_triggered w) →
  quiet e (step time_period cfg w i)
  ∧ jobs_of e (trace (step time_period cfg w i)) = jobs_of e (trace w).
Proof.
  intros Hq Harm. destruct i as [entity from_s to_s|t|]; cbn [step].
  - unfold deliver.
    set (w2 := same_state_listeners cfg entity from_s to_s
                 (write_state entity to_s w)).
    assert (quiet e w2) as Hq2.
    { intros tm Htm. apply Hq.
      by apply same_state_listeners_timers in Htm. }
    destruct (listening w2 && bool_decide (entity ∈ entity_id cfg));
      [|done].
    apply (listener_quiet e entity from_s to_s w2 Hq2).
    intros -> Hc. by apply Harm.
  - destruct (advance_to_frame cfg t w) as (_&_&Ht&_). split.
    + intros tm. rewrite Ht, list_elem_of_filter. intros [_ Htm].
      by apply Hq.
    + rewrite advance_to_trace. apply completions_other.
      intros tm. rewrite merge_sort_Permutation, list_elem_of_filter.
      intros [_ Htm]. by apply Hq.
  - rewrite async_remove_eq. split; [|done].
    intros tm. cbn [timers]. rewrite list_elem_of_filter.
    intros [_ Htm]. by apply Hq.
Qed.

(** Only a mismatching change of [e] takes [e] out of
    [entities_triggered]. *)
Lemma step_armed e w i :
  e ∈ entities_triggered w →
  ¬ leaves_band cfg e i →
  e ∈ entities_triggered (step time_period cfg w i).
Proof.
  intros Hin Hl. destruct i as [entity from_s to_s|t|]; cbn [step].
  - unfold deliver.
    set (w2 := same_state_listeners cfg entity from_s to_s
                 (write_state entity to_s w)).
    assert (e ∈ entities_triggered w2) as Hin2 by done.
    destruct (listening w2 && bool_decide (entity ∈ entity_id cfg));
      [|done].
    destruct (listener_cases time_period cfg entity from_s to_s w2)
      as [(Hc & ->)|[(Hc & _ & ->)|[(Hc & _ & Ht & st & -> & ->)
         |[(Hc & _ & td & p & Htd & Ht & Hp & ->)
          |[(Hc & _ & td & Htd & Ht & Hp & ->)
          |(Hc & _ & td & Htd & Ht & Hp & ->)]]]]]; cbn; try done.
    + cbn in Hl. set_solver.
    + set_solver.
    + set_solver.
    + set_solver.
  - by destruct (advance_to_frame cfg t w) as (_&_&_&_&->&_).
  - by rewrite async_remove_eq.
Qed.

Lemma wf_attach t sts : wf (async_attach_trigger t sts).
Proof.
  split.
  - intros tm Htm. by apply elem_of_nil in Htm.
  - intros tm1 tm2 Htm. by apply elem_of_nil in Htm.
Qed.

Lemma async_remove_timers w :
  tracked w → timers (async_remove w) = [].
Proof.
  intros Hwf. rewrite async_remove_eq. cbn [timers].
  apply filter_none. intros tm Htm Hnot. apply Hnot.
  destruct (Hwf tm Htm) as (_ & Hu & _).
  apply list_elem_of_fmap. exists (t_entity tm, handle tm).
  split; [done|]. by apply elem_of_map_to_list.
Qed.

Lemma step_tracked w i : tracked w → tracked (step time_period cfg w i).
Proof.
  intros Hwf. destruct i as [entity from_s to_s|t|]; cbn [step].
  - unfold deliver.
    set (w2 := same_state_listeners cfg entity from_s to_s
                 (write_state entity to_s w)).
    assert (tracked w2) as Hwf2.
    { intros tm Htm. apply same_state_listeners_timers in Htm.
      by apply Hwf. }
    destruct (listening w2 && bool_decide (entity ∈ entity_id cfg));
      [|done].
    destruct (listener_cases time_period cfg entity from_s to_s w2)
      as [(Hc & ->)|[(Hc & _ & ->)|[(Hc & _ & Ht & st & -> & ->)
         |[(Hc & Hin & td & p & Htd & Ht & Hp & ->)
          |[(Hc & _ & td & Htd & Ht & Hp & ->)
          |(Hc & _ & td & Htd & Ht & Hp & ->)]]]]]; try done.
    + intros tm Htm. cbn [timers set_entities_triggered] in Htm.
      destruct (Hwf2 tm Htm) as (Hh & Hu & He).
      assert (t_entity tm ≠ entity) as Hne.
      { unfold w2 in Htm.
        rewrite same_state_listeners_mismatch in Htm by done.
        cbn in Htm. by apply list_elem_of_filter in Htm as [? _]. }
      cbn [next_handle unsub_track_same entities_triggered
           set_entities_triggered].
      repeat split; [done|done|set_solver].
    + intros tm Htm. destruct (Hwf2 tm Htm) as (Hh & Hu & He).
      cbn [next_handle unsub_track_same entities_triggered
           set_entities_triggered emit].
      repeat split; [done|done|set_solver].
    + intros tm. cbn [timers]. rewrite elem_of_app, list_elem_of_singleton.
      intros [Htm| ->].
      * destruct (Hwf2 tm Htm) as (Hh & Hu & He).
        assert (t_entity tm ≠ entity) as Hne
          by (intros E; by rewrite E in He).
        cbn [next_handle unsub_track_same entities_triggered].
        rewrite lookup_insert_ne by done.
        repeat split; [lia|done|set_solver].
      * cbn [next_handle unsub_track_same entities_triggered
             handle t_entity].
        rewrite lookup_insert_eq. repeat split; [lia|set_solver].
    + intros tm Htm. destruct (Hwf2 tm Htm) as (Hh & Hu & He).
      cbn [next_handle unsub_track_same entities_triggered].
      repeat split; [done|done|set_solver].
  - destruct (advance_to_frame cfg t w) as (_&_&Ht&Hn&He&Hu&_).
    intros tm. rewrite Ht, Hn, He, Hu, list_elem_of_filter.
    intros [_ Htm]. by apply Hwf.
  - intros tm. rewrite async_remove_timers by done.
    intros Htm. by apply elem_of_nil in Htm.
Qed.

Lemma step_handles_apart w i :
  wf w → handles_apart (step time_period cfg w i).
Proof.
  intros [Htr Hap]. destruct i as [entity from_s to_s|t|]; cbn [step].
  - unfold deliver.
    set (w2 := same_state_listeners cfg entity from_s to_s
                 (write_state entity to_s w)).
    assert (handles_apart w2) as Hap2.
    { intros tm1 tm2 H1 H2. apply same_state_listeners_timers in H1, H2.
      by apply Hap. }
    assert (tracked w2) as Htr2.
    { intros tm Htm. apply same_state_listeners_timers in Htm.
      by apply Htr. }
    destruct (listening w2 && bool_decide (entity ∈ entity_id cfg));
      [|done].
    destruct (listener_cases time_period cfg entity from_s to_s w2)
      as [(Hc & ->)|[(Hc & _ & ->)|[(Hc & _ & Ht & st & -> & ->)
         |[(Hc & Hin & td & p & Htd & Ht & Hp & ->)
          |[(Hc & _ & td & Htd & Ht & Hp & ->)
          |(Hc & _ & td & Htd & Ht & Hp & ->)]]]]]; try done.
    intros tm1 tm2. cbn [timers].
    rewrite !elem_of_app, !list_elem_of_singleton.
    intros [H1| ->] [H2| ->]; cbn [handle t_entity]; intros Hh.
    + by apply Hap2.
    + destruct (Htr2 tm1 H1) as (Hlt & _). lia.
    + destruct (Htr2 tm2 H2) as (Hlt & _). lia.
    + done.
  - destruct (advance_to_frame cfg t w) as (_&_&Ht&_).
    intros tm1 tm2. rewrite Ht, !list_elem_of_filter.
    intros [_ H1] [_ H2]. by apply Hap.
  - intros tm1 tm2. rewrite async_remove_timers by done.
    intros Htm. by apply elem_of_nil in Htm.
Qed.

Lemma step_wf w i : wf w → wf (step time_period cfg w i).
Proof.
  intros Hwf. split; [apply step_tracked, Hwf|by apply step_handles_apart].
Qed.

Lemma run_wf w script : wf w → wf (run time_period cfg w script).
Proof.
  revert w. induction script as [|i script IH]; intros w Hwf; [done|].
  cbn. apply IH. by apply step_wf.
Qed.

End Invariants.

(** ** Runs *)

Section Runs.

Context (time_period : Rendered → option Z) (cfg : Config).

Lemma run_app w s1 s2 :
  run time_period cfg w (s1 ++ s2)
  = run time_period cfg (run time_period cfg w s1) s2.
Proof. apply foldl_app. Qed.

(** While [e] is armed without a timer and does not leave the band,
    nothing is fired for it. *)
Lemma run_armed_quiet e w script :
  quiet e w → e ∈ entities_triggered w →
  Forall (λ i, ¬ leaves_band cfg e i) script →
  quiet e (run time_period cfg w script)
  ∧ e ∈ entities_triggered (run time_period cfg w script)
  ∧ jobs_of e (trace (run time_period cfg w script)) = jobs_of e (trace w).
Proof.
  revert w. induction script as [|i script IH]; intros w Hq Hin Hs; [done|].
  apply Forall_cons in Hs as [Hi Hs]. cbn [run foldl].
  destruct (step_quiet time_period cfg e w i Hq) as [Hq' Hj]; [done|].
  destruct (IH (step time_period cfg w i)) as (? & ? & Hj');
    [done|by apply step_armed|done|].
  repeat split; [done|done|]. unfold run in Hj'. by rewrite Hj', Hj.
Qed.

(** While [e] has no timer and does not enter the band, nothing is fired
    for it. *)
Lemma run_idle_quiet e w script :
  quiet e w →
  Forall (λ i, ¬ enters_band cfg e i) script →
  quiet e (run time_period cfg w script)
  ∧ jobs_of e (trace (run time_period cfg w script)) = jobs_of e (trace w).
Proof.
  revert w. induction script as [|i script IH]; intros w Hq Hs; [done|].
  apply Forall_cons in Hs as [Hi Hs]. cbn [run foldl].
  destruct (step_quiet time_period cfg e w i Hq) as [Hq' Hj]; [done|].
  destruct (IH (step time_period cfg w i)) as (? & Hj'); [done|done|].
  split; [done|]. unfold run in Hj'. by rewrite Hj', Hj.
Qed.

Lemma wf_unarmed_quiet e w : wf w → e ∉ entities_triggered w → quiet e w.
Proof.
  intros [Hwf _] Hin tm Htm E. destruct (Hwf tm Htm) as (_ & _ & He).
  by rewrite E in He.
Qed.

(** With a falsy [time_delta] no same-state timer is ever started. *)
Lemma falsy_step_no_timer w i :
  truthy (time_delta cfg) = false →
  timers w = [] → filter is_track (trace w) = [] →
  timers (step time_period cfg w i) = []
  ∧ filter is_track (trace (step time_period cfg w i)) = [].
Proof.
  intros Hf Ht Htr. destruct i as [entity from_s to_s|t|]; cbn [step].
  - unfold deliver.
    set (w2 := same_state_listeners cfg entity from_s to_s
                 (write_state entity to_s w)).
    assert (timers w2 = []) as Ht2 by (cbn; by rewrite Ht).
    assert (trace w2 = trace w) as Htr2 by done.
    destruct (listening w2 && bool_decide (entity ∈ entity_id cfg));
      [|by rewrite Htr2].
    destruct (listener_cases time_period cfg entity from_s to_s w2)
      as [(Hc & ->)|[(Hc & _ & ->)|[(Hc & _ & _ & st & -> & ->)
         |[(Hc & _ & td & p & Htd & Htt & _)
          |[(Hc & _ & td & Htd & Htt & _)
          |(Hc & _ & td & Htd & Htt & _)]]]]];
      try (rewrite Htd in Hf; congruence); cbn [timers trace emit
        set_entities_triggered]; rewrite ?Htr2; done.
  - destruct (advance_to_frame cfg t w) as (_&_&Ht'&_).
    rewrite Ht', Ht. split; [done|].
    rewrite advance_to_trace, Ht. done.
  - rewrite async_remove_eq. cbn [timers trace]. by rewrite Ht.
Qed.

Lemma falsy_run_no_timer w script :
  truthy (time_delta cfg) = false →
  timers w = [] → filter is_track (trace w) = [] →
  timers (run time_period cfg w script) = []
  ∧ filter is_track (trace (run time_period cfg w script)) = [].
Proof.
  intros Hf. revert w.
  induction script as [|i script IH]; intros w Ht Htr; [done|].
  destruct (falsy_step_no_timer w i Hf Ht Htr). by apply IH.
Qed.

End Runs.

(** ** Claims about a single episode *)

Section Episodes.

Context (time_period : Rendered → option Z) (cfg : Config).

Lemma deliver_match entity from_s to_s w :
  check_numeric_state cfg entity from_s to_s = true →
  listening w = true → entity ∈ entity_id cfg →
  deliver time_period cfg entity from_s to_s w
  = state_automation_listener time_period cfg entity from_s to_s
      (write_state entity to_s w).
Proof.
  intros Hc Hl Hin. unfold deliver.
  rewrite same_state_listeners_match by done.
  cbn [listening write_state set_states]. rewrite Hl.
  by rewrite bool_decide_eq_true_2.
Qed.

Lemma deliver_armed entity from_s to_s w :
  entity ∈ entities_triggered w →
  check_numeric_state cfg entity from_s to_s = true →
  deliver time_period cfg entity from_s to_s w = write_state entity to_s w.
Proof.
  intros Hin Hc. unfold deliver.
  rewrite same_state_listeners_match by done.
  destruct (_ && _); [|done]. by rewrite listener_armed.
Qed.

(** The trackers and the listener may be served in either order. *)
Lemma deliver_order entity from_s to_s w :
  deliver time_period cfg entity from_s to_s w
  = let w := write_state entity to_s w in
    same_state_listeners cfg entity from_s to_s
      (if listening w && bool_decide (entity ∈ entity_id cfg)
       then state_automation_listener time_period cfg entity from_s to_s w
       else w).
Proof.
  unfold deliver.
  destruct (check_numeric_state cfg entity from_s to_s) eqn:Hc.
  - by rewrite !same_state_listeners_match.
  - rewrite !same_state_listeners_mismatch by done.
    cbn [listening set_timers].
    destruct (_ && _); [|done]. by rewrite !listener_mismatch.
Qed.

(** C4. Without a sustain duration the first matching transition of an
    entity fires in the very step that delivers it, with the payload of
    that transition and the context of the new state; the entity is then
    armed, and nothing more fires for it as long as no change takes it
    out of the band.  With above=10 the readings 5, 15, 8, 20 fire twice:
    on 5 → 15 and on 8 → 20. *)
Theorem immediate_fire_without_duration entity from_s st w :
  time_delta cfg = None →
  wf w → listening w = true → entity ∈ entity_id cfg →
  check_numeric_state cfg entity from_s (Some st) = true →
  entity ∉ entities_triggered w →
  let w' := deliver time_period cfg entity from_s (Some st) w in
  trace w'
  = (now w, RunJob (mkPayload (platform_type cfg) entity (below cfg)
                      (above cfg) from_s (Some st) (ForConfigured None))
              (context st)) :: trace w
  ∧ entity ∈ entities_triggered w'
  ∧ (∀ script,
       Forall (λ i, ¬ leaves_band cfg entity i) script →
       jobs_of entity (trace (run time_period cfg w' script))
       = jobs_of entity (trace w'))
  ∧ jobs (trace (run Scenario.time_period Scenario.above_10 Scenario.start
                   Scenario.up_down_up))
    = [ (0, RunJob (mkPayload "numeric_state" "sensor.t" None
                      (Some (inject_Z 10)) (Scenario.reading 8 2)
                      (Scenario.reading 20 3) (ForConfigured None)) 3%nat);
        (0, RunJob (mkPayload "numeric_state" "sensor.t" None
                      (Some (inject_Z 10)) (Scenario.reading 5 0)
                      (Scenario.reading 15 1) (ForConfigured None)) 1%nat) ].
Proof.
  intros Htd Hwf Hl Hin Hc Hnot w'.
  assert (w' = emit (RunJob (mkPayload (platform_type cfg) entity (below cfg)
                    (above cfg) from_s (Some st)
                    (ForConfigured None)) (context st))
      (set_entities_triggered ({[entity]} ∪ entities_triggered w)
         (write_state entity (Some st) w))) as Hw'.
  { unfold w'. rewrite deliver_match by done.
    rewrite listener_immediate; [by rewrite Htd|done|done|by rewrite Htd]. }
  split; [by rewrite Hw'|]. split; [rewrite Hw'; cbn; set_solver|].
  split; [|by vm_compute].
  intros script Hs.
  apply run_armed_quiet; [|rewrite Hw'; cbn; set_solver|done].
  rewrite Hw'. intros tm Htm. by apply (wf_unarmed_quiet entity w).
Qed.

(** C6. A matching change of an entity that is already armed starts
    nothing: the listener returns the world it was given, the delivery
    only writes the new state to the state machine, so the live timers
    with their deadlines, the three containers and the trace are as
    before.  The entity stays armed under every input except a change
    that takes it out of the band, and only after that can an episode
    start again. *)
Theorem armed_match_changes_nothing entity from_s to_s w :
  entity ∈ entities_triggered w →
  check_numeric_state cfg entity from_s to_s = true →
  state_automation_listener time_period cfg entity from_s to_s w = w
  ∧ deliver time_period cfg entity from_s to_s w
    = write_state entity to_s w
  ∧ timers (deliver time_period cfg entity from_s to_s w) = timers w
  ∧ (∀ i, ¬ leaves_band cfg entity i →
       entity ∈ entities_triggered (step time_period cfg w i)).
Proof.
  intros Hin Hc.
  assert (deliver time_period cfg entity from_s to_s w
          = write_state entity to_s w) as Hd by (by apply deliver_armed).
  split; [by apply listener_armed|]. split; [done|].
  split; [by rewrite Hd|].
  intros i Hi. by apply step_armed.
Qed.

(** C10. A configured zero duration is falsy, so the first matching
    transition fires in the step that delivers it, the ["for"] entry of
    the payload is the configured zero duration itself, no timer is added
    by that step, and no run from attaching on ever starts a same-state
    timer. *)
Theorem zero_duration_fires_immediately entity from_s st w :
  time_delta cfg = Some (FixedDuration 0) →
  listening w = true → entity ∈ entity_id cfg →
  check_numeric_state cfg entity from_s (Some st) = true →
  entity ∉ entities_triggered w →
  let w' := deliver time_period cfg entity from_s (Some st) w in
  trace w'
  = (now w, RunJob (mkPayload (platform_type cfg) entity (below cfg)
                      (above cfg) from_s (Some st)
                      (ForConfigured (Some (FixedDuration 0))))
              (context st)) :: trace w
  ∧ timers w' = timers w
  ∧ period w' = period w
  ∧ (∀ t sts script,
       let w'' := run time_period cfg (async_attach_trigger t sts) script in
       timers w'' = [] ∧ filter is_track (trace w'') = []).
Proof.
  intros Htd Hl Hin Hc Hnot w'.
  assert (truthy (time_delta cfg) = false) as Hf by (by rewrite Htd).
  assert (w' = emit (RunJob (mkPayload (platform_type cfg) entity (below cfg)
                    (above cfg) from_s (Some st)
                    (ForConfigured (Some (FixedDuration 0)))) (context st))
      (set_entities_triggered ({[entity]} ∪ entities_triggered w)
         (write_state entity (Some st) w))) as Hw'.
  { unfold w'. rewrite deliver_match by done.
    rewrite listener_immediate; [by rewrite Htd|done|done|done]. }
  split; [by rewrite Hw'|]. split; [by rewrite Hw'|].
  split; [by rewrite Hw'|].
  intros t sts script. by apply falsy_run_no_timer.
Qed.

(** C5, as amended.  When resolving the sustain duration of a new
    episode fails with a template error, or with a rendered value that is
    not read as a time span or is a negative one, the delivery leaves the
    world as it was but for the state written to the state machine and
    the trace, which gains the rendering and the logged error: no timer,
    no action, the entity not armed, every container and the subscription
    untouched.  The next matching change of the entity whose resolution
    succeeds arms it and starts its timer. *)
Theorem resolution_failure_aborts_episode entity from_s to_s td w :
  time_delta cfg = Some td → truthy (Some td) = true →
  listening w = true → entity ∈ entity_id cfg →
  check_numeric_state cfg entity from_s to_s = true →
  entity ∉ entities_triggered w →
  resolution_fails time_period td (states (write_state entity to_s w))
    (trigger_variables cfg entity) →
  let w' := deliver time_period cfg entity from_s to_s w in
  w' = mkWorld (now w) (states (write_state entity to_s w)) (listening w)
         (timers w) (next_handle w) (entities_triggered w)
         (unsub_track_same w) (period w)
         ((now w, LogError (automation_name cfg))
            :: rendering td entity (now w) ++ trace w)
  ∧ jobs (trace w') = jobs (trace w)
  ∧ (∀ from_s' to_s' p,
       check_numeric_state cfg entity from_s' to_s' = true →
       resolve_period time_period td (states (write_state entity to_s' w'))
         (trigger_variables cfg entity) = Some p →
       let w'' := deliver time_period cfg entity from_s' to_s' w' in
       entity ∈ entities_triggered w''
       ∧ timers w''
         = timers w ++ [mkTimer (next_handle w) entity (now w + p)
                          from_s' to_s']).
Proof.
  intros Htd Ht Hl Hin Hc Hnot Hp w'. apply try_resolve_caught in Hp.
  assert (w' = mkWorld (now w) (states (write_state entity to_s w))
         (listening w)
         (timers w) (next_handle w) (entities_triggered w)
         (unsub_track_same w) (period w)
         ((now w, LogError (automation_name cfg))
            :: rendering td entity (now w) ++ trace w)) as Hw'.
  { unfold w'. rewrite deliver_match by done.
    by rewrite (listener_abort _ _ _ _ _ _ td). }
  split; [done|]. split.
  - rewrite Hw'. cbn [trace]. unfold jobs, rendering.
    rewrite filter_cons_False by (cbn; tauto).
    destruct (renders td); [|done].
    by rewrite filter_app, filter_cons_False by (cbn; tauto).
  - intros from_s' to_s' p Hc' Hp' w''. unfold w''.
    rewrite deliver_match; [|done|by rewrite Hw'|done].
    rewrite (listener_arm _ _ _ _ _ _ td p); try done.
    + rewrite Hw'. cbn. split; [set_solver|done].
    + by rewrite Hw'.
Qed.

(** C7. Calling the removal handle a second time changes nothing: the
    world after two calls is the world after one, the second call finds
    no timer handle left to call, and the trace has gained nothing. *)
Theorem async_remove_idempotent w :
  async_remove (async_remove w) = async_remove w
  ∧ (map_to_list (unsub_track_same (async_remove w))).*2 = []
  ∧ trace (async_remove (async_remove w)) = trace w.
Proof.
  assert ((map_to_list (unsub_track_same (async_remove w))).*2 = [])
    as Hnil by (by rewrite async_remove_eq).
  assert (async_remove (async_remove w) = async_remove w) as Hidem.
  { rewrite (async_remove_eq (async_remove w)), Hnil.
    rewrite (async_remove_eq w). cbn. f_equal.
    rewrite list_filter_filter_r; [done|].
    intros tm _. apply not_elem_of_nil. }
  split; [done|]. split; [done|].
  rewrite Hidem. by rewrite async_remove_eq.
Qed.

End Episodes.

Lemma immediate_fire_without_duration_witness :
  trace (deliver Scenario.time_period Scenario.above_10 "sensor.t"
           (Scenario.reading 5 0) (Scenario.reading 15 1) Scenario.start)
  = [ (0, RunJob (mkPayload "numeric_state" "sensor.t" None
                    (Some (inject_Z 10)) (Scenario.reading 5 0)
                    (Scenario.reading 15 1) (ForConfigured None)) 1%nat) ].
Proof.
  destruct (immediate_fire_without_duration Scenario.time_period
              Scenario.above_10 "sensor.t" (Scenario.reading 5 0)
              (mkState (Some (inject_Z 15)) 1) Scenario.start)
    as [H _].
  - reflexivity.
  - apply wf_attach.
  - reflexivity.
  - apply list_elem_of_here.
  - reflexivity.
  - apply not_elem_of_empty.
  - exact H.
Defined.

(** ** Claims about cancelling *)

Section Cancelling.

Context (time_period : Rendered → option Z) (cfg : Config).

(** Without subscription and without timers nothing happens any more. *)
Lemma detached_step w i :
  listening w = false → timers w = [] →
  listening (step time_period cfg w i) = false
  ∧ timers (step time_period cfg w i) = []
  ∧ trace (step time_period cfg w i) = trace w.
Proof.
  intros Hl Ht. destruct i as [entity from_s to_s|t|]; cbn [step].
  - unfold deliver.
    set (w2 := same_state_listeners cfg entity from_s to_s
                 (write_state entity to_s w)).
    assert (listening w2 = false) as -> by done.
    cbn. by rewrite Ht.
  - destruct (advance_to_frame cfg t w) as (_&Hl'&Ht'&_).
    rewrite Hl', Ht', advance_to_trace, Ht. done.
  - rewrite async_remove_eq. cbn. by rewrite Ht.
Qed.

Lemma detached_run w script :
  listening w = false → timers w = [] →
  trace (run time_period cfg w script) = trace w.
Proof.
  revert w. induction script as [|i script IH]; intros w Hl Ht; [done|].
  destruct (detached_step w i Hl Ht) as (Hl' & Ht' & Htr).
  cbn [run foldl]. unfold run in IH. by rewrite IH.
Qed.

(** A handle that was handed out and is not live stays that way. *)
Lemma step_retired h w i :
  (h < next_handle w)%nat →
  (∀ tm, tm ∈ timers w → handle tm ≠ h) →
  (h < next_handle (step time_period cfg w i))%nat
  ∧ (∀ tm, tm ∈ timers (step time_period cfg w i) → handle tm ≠ h).
Proof.
  intros Hh Hn. destruct i as [entity from_s to_s|t|]; cbn [step].
  - unfold deliver.
    set (w2 := same_state_listeners cfg entity from_s to_s
                 (write_state entity to_s w)).
    assert (h < next_handle w2)%nat as Hh2 by done.
    assert (∀ tm, tm ∈ timers w2 → handle tm ≠ h) as Hn2.
    { intros tm Htm. apply Hn.
      by apply same_state_listeners_timers in Htm. }
    destruct (listening w2 && bool_decide (entity ∈ entity_id cfg));
      [|done].
    destruct (listener_cases time_period cfg entity from_s to_s w2)
      as [(Hc & ->)|[(Hc & _ & ->)|[(Hc & _ & Ht & st & -> & ->)
         |[(Hc & Hin & td & p & Htd & Ht & Hp & ->)
          |[(Hc & _ & td & Htd & Ht & Hp & ->)
          |(Hc & _ & td & Htd & Ht & Hp & ->)]]]]]; try done.
    cbn [next_handle timers]. split; [lia|].
    intros tm. rewrite elem_of_app, list_elem_of_singleton.
    intros [Htm| ->]; [by apply Hn2|]. cbn. lia.
  - destruct (advance_to_frame cfg t w) as (_&_&Ht&Hnh&_).
    rewrite Hnh. split; [done|]. intros tm.
    rewrite Ht, list_elem_of_filter. intros [_ Htm]. by apply Hn.
  - rewrite async_remove_eq. cbn [next_handle timers]. split; [done|].
    intros tm. rewrite list_elem_of_filter. intros [_ Htm]. by apply Hn.
Qed.

Lemma run_retired h w script :
  (h < next_handle w)%nat →
  (∀ tm, tm ∈ timers w → handle tm ≠ h) →
  ∀ tm, tm ∈ timers (run time_period cfg w script) → handle tm ≠ h.
Proof.
  revert w. induction script as [|i script IH]; intros w Hh Hn; [done|].
  destruct (step_retired h w i Hh Hn) as [Hh' Hn'].
  by apply IH.
Qed.

(** C2. A mismatching change of an entity whose timer is running
    cancels the timer and disarms the entity in the step that delivers
    it, the same-state tracker cancelling before the listener disarms;
    that step fires nothing, the cancelled timer is never live again, and
    nothing fires for the entity in any continuation in which it does not
    enter the band anew. *)
Theorem mismatch_cancels_timer entity from_s to_s tm w :
  wf w → listening w = true → entity ∈ entity_id cfg →
  tm ∈ timers w → t_entity tm = entity →
  check_numeric_state cfg entity from_s to_s = false →
  let w' := deliver time_period cfg entity from_s to_s w in
  quiet entity
    (same_state_listeners cfg entity from_s to_s (write_state entity to_s w))
  ∧ w' = set_entities_triggered (entities_triggered w ∖ {[entity]})
           (same_state_listeners cfg entity from_s to_s
              (write_state entity to_s w))
  ∧ quiet entity w'
  ∧ (entity ∉ entities_triggered w')
  ∧ trace w' = trace w
  ∧ (∀ script tm',
       tm' ∈ timers (run time_period cfg w' script) →
       handle tm' ≠ handle tm)
  ∧ (∀ script,
       Forall (λ i, ¬ enters_band cfg entity i) script →
       jobs_of entity (trace (run time_period cfg w' script))
       = jobs_of entity (trace w)).
Proof.
  intros [Htr Hap] Hl Hin Htm He Hc w'.
  set (w2 := same_state_listeners cfg entity from_s to_s
               (write_state entity to_s w)).
  assert (quiet entity w2) as Hq2.
  { intros tm' Htm'. unfold w2 in Htm'.
    rewrite same_state_listeners_mismatch in Htm' by done.
    cbn in Htm'. by apply list_elem_of_filter in Htm' as [? _]. }
  assert (w' = set_entities_triggered (entities_triggered w ∖ {[entity]}) w2)
    as Hw'.
  { unfold w', deliver. fold w2.
    assert (listening w2 = true) as -> by done.
    rewrite bool_decide_eq_true_2 by done. cbn [andb].
    by rewrite listener_mismatch. }
  assert (quiet entity w') as Hq' by (by rewrite Hw').
  split; [done|]. split; [done|]. split; [done|].
  split; [rewrite Hw'; cbn; set_solver|].
  split; [by rewrite Hw'|]. split.
  - intros script. apply run_retired.
    + rewrite Hw'. cbn. by destruct (Htr tm Htm) as (? & _).
    + intros tm' Htm' Hh. apply (Hq' tm' Htm'). rewrite <-He.
      apply Hap; [|done|done].
      rewrite Hw' in Htm'. cbn [timers set_entities_triggered] in Htm'.
      by apply same_state_listeners_timers in Htm'.
  - intros script Hs.
    destruct (run_idle_quiet time_period cfg entity w' script Hq' Hs)
      as [_ ->].
    by rewrite Hw'.
Qed.

(** C9, as amended.  Removing the trigger ends the subscription, leaves
    no timer live and empties [unsub_track_same]; [entities_triggered]
    and [period] are left as they were; whatever comes afterwards, no
    action is fired. *)
Theorem async_remove_stops_firing w :
  wf w →
  let w' := async_remove w in
  listening w' = false
  ∧ timers w' = []
  ∧ unsub_track_same w' = ∅
  ∧ entities_triggered w' = entities_triggered w
  ∧ period w' = period w
  ∧ (∀ script, trace (run time_period cfg w' script) = trace w).
Proof.
  intros [Htr _] w'.
  assert (timers w' = []) as Ht by (by apply async_remove_timers).
  assert (listening w' = false) as Hl by (unfold w'; by rewrite async_remove_eq).
  split; [done|]. split; [done|].
  split; [unfold w'; by rewrite async_remove_eq|].
  split; [unfold w'; by rewrite async_remove_eq|].
  split; [unfold w'; by rewrite async_remove_eq|].
  intros script. rewrite detached_run by done.
  unfold w'. by rewrite async_remove_eq.
Qed.

End Cancelling.

(** ** Claims about resolving the duration *)

Section Resolution.

Context (time_period : Rendered → option Z) (cfg : Config).

Lemma call_action_ignored P `{!∀ x, Decision (P x)} entity from_s to_s w :
  ignores_actions P →
  filter P (trace (call_action cfg entity from_s to_s w))
  = filter P (trace w).
Proof.
  intros [Hj Hr]. unfold call_action.
  destruct (if negb _ then _ else _); [destruct to_s|]; cbn [trace emit];
    by rewrite filter_cons_False.
Qed.

Lemma completions_ignored P `{!∀ x, Decision (P x)} l w :
  ignores_actions P →
  filter P (trace (foldl (state_for_listener cfg) w l)) = filter P (trace w).
Proof.
  intros HP. revert w. induction l as [|tm l IH]; intros w; [done|].
  cbn [foldl]. rewrite IH. unfold state_for_listener.
  destruct (check_numeric_state _ _ _ _); [|done].
  by rewrite call_action_ignored.
Qed.

Lemma advance_to_ignored P `{!∀ x, Decision (P x)} t w :
  ignores_actions P →
  filter P (trace (advance_to cfg t w)) = filter P (trace w).
Proof. intros HP. rewrite advance_to_trace. by apply completions_ignored. Qed.

Lemma is_render_ignores : ignores_actions is_render.
Proof. split; intros; cbn; tauto. Qed.

Lemma is_track_ignores : ignores_actions is_track.
Proof. split; intros; cbn; tauto. Qed.

Lemma is_log_error_ignores : ignores_actions is_log_error.
Proof. split; intros; cbn; tauto. Qed.

Lemma is_propagate_ignores : ignores_actions is_propagate.
Proof. split; intros; cbn; tauto. Qed.

(** Resolving anything but a fixed duration renders. *)
Lemma not_fixed_renders td :
  (∀ d, td ≠ FixedDuration d) → renders td = true.
Proof. intros Hn. destruct td as [d| |]; [by destruct (Hn d)|done|done]. Qed.

Lemma step_balanced td w i :
  time_delta cfg = Some td → (∀ d, td ≠ FixedDuration d) →
  renderings_balanced (trace w) →
  renderings_balanced (trace (step time_period cfg w i)).
Proof.
  intros Htd Hr Hb. apply not_fixed_renders in Hr.
  unfold renderings_balanced in *.
  destruct i as [entity from_s to_s|t|]; cbn [step].
  - unfold deliver.
    set (w2 := same_state_listeners cfg entity from_s to_s
                 (write_state entity to_s w)).
    assert (trace w2 = trace w) as Htr2 by done.
    destruct (listening w2 && bool_decide (entity ∈ entity_id cfg));
      [|by rewrite Htr2].
    destruct (listener_cases time_period cfg entity from_s to_s w2)
      as [(Hc & ->)|[(Hc & _ & ->)|[(Hc & _ & _ & st & -> & ->)
         |[(Hc & _ & td' & p & Htd' & _ & _ & ->)
          |[(Hc & _ & td' & Htd' & _ & _ & ->)
          |(Hc & _ & td' & Htd' & _ & _ & ->)]]]]];
      cbn [trace emit set_entities_triggered]; rewrite ?Htr2; try done.
    + assert (td' = td) as -> by congruence.
      unfold rendering. rewrite Hr. cbn [app].
      rewrite (filter_cons_False is_render) by (cbn; tauto).
      rewrite (filter_cons_True is_render) by done.
      rewrite (filter_cons_True is_track) by done.
      rewrite (filter_cons_False is_track) by (cbn; tauto).
      rewrite !(filter_cons_False is_log_error) by (cbn; tauto).
      rewrite !(filter_cons_False is_propagate) by (cbn; tauto).
      cbn [length]. lia.
    + assert (td' = td) as -> by congruence.
      unfold rendering. rewrite Hr. cbn [app].
      rewrite (filter_cons_False is_render) by (cbn; tauto).
      rewrite (filter_cons_True is_render) by done.
      rewrite !(filter_cons_False is_track) by (cbn; tauto).
      rewrite (filter_cons_True is_log_error) by done.
      rewrite (filter_cons_False is_log_error) by (cbn; tauto).
      rewrite !(filter_cons_False is_propagate) by (cbn; tauto).
      cbn [length]. lia.
    + assert (td' = td) as -> by congruence.
      unfold rendering. rewrite Hr. cbn [app].
      rewrite (filter_cons_False is_render) by (cbn; tauto).
      rewrite (filter_cons_True is_render) by done.
      rewrite !(filter_cons_False is_track) by (cbn; tauto).
      rewrite !(filter_cons_False is_log_error) by (cbn; tauto).
      rewrite (filter_cons_True is_propagate) by done.
      rewrite (filter_cons_False is_propagate) by (cbn; tauto).
      cbn [length]. lia.
  - rewrite !advance_to_ignored;
      auto using is_render_ignores, is_track_ignores, is_log_error_ignores,
        is_propagate_ignores.
  - by rewrite async_remove_eq.
Qed.

Lemma run_balanced td w script :
  time_delta cfg = Some td → (∀ d, td ≠ FixedDuration d) →
  renderings_balanced (trace w) →
  renderings_balanced (trace (run time_period cfg w script)).
Proof.
  intros Htd Hr. revert w.
  induction script as [|i script IH]; intros w Hb; [done|].
  apply IH. by apply (step_balanced td).
Qed.

(** What starting an episode with the resolved period [p] leaves behind:
    the world after the delivery as the listener arms it. *)
Lemma deliver_arm entity from_s to_s td p w :
  time_delta cfg = Some td → truthy (Some td) = true →
  listening w = true → entity ∈ entity_id cfg →
  check_numeric_state cfg entity from_s to_s = true →
  entity ∉ entities_triggered w →
  try_resolve time_period td (states (write_state entity to_s w))
    (mkVariables "numeric_state" entity (below cfg) (above cfg))
  = Stored p →
  deliver time_period cfg entity from_s to_s w
  = mkWorld (now w) (states (write_state entity to_s w)) (listening w)
      (timers w ++ [mkTimer (next_handle w) entity (now w + p) from_s to_s])
      (S (next_handle w))
      ({[entity]} ∪ entities_triggered w)
      (<[entity := next_handle w]> (unsub_track_same w))
      (<[entity := p]> (period w))
      ((now w, TrackSameState (next_handle w) entity p)
         :: rendering td entity (now w) ++ trace w).
Proof.
  intros Htd Ht Hl Hin Hc Hnot Hp.
  rewrite deliver_match by done.
  rewrite (listener_arm _ _ _ _ _ _ td p); try done.
  by apply resolve_period_stored.
Qed.

(** C8. A new episode resolves the sustain duration in the step that
    starts it, once, and before its timer is started.  A template is
    rendered against the state machine as it is after the change and
    against the trigger variables of this episode (platform
    [numeric_state], the entity, the configured bounds); a dict of
    templates likewise; a fixed duration is taken as it is and nothing is
    rendered.  The trace gains the one rendering and then the timer
    started with the validated period, both at the time of the change;
    [period[entity]] becomes that period whatever was stored there, and
    the timer's deadline is counted from it.  Timers completing render
    nothing, and over any run of a trigger whose duration is not fixed
    the renderings are as many as the episodes started (timers started,
    failures logged and exceptions let through). *)
Theorem duration_resolved_once_per_episode entity from_s to_s w :
  listening w = true → entity ∈ entity_id cfg →
  check_numeric_state cfg entity from_s to_s = true →
  entity ∉ entities_triggered w →
  let sts := states (write_state entity to_s w) in
  let variables :=
    mkVariables "numeric_state" entity (below cfg) (above cfg) in
  let w' := deliver time_period cfg entity from_s to_s w in
  (∀ t s p,
     time_delta cfg = Some (DynamicExpression t) →
     t sts variables = Returns s →
     validate_period time_period (RStr s) = Some p →
     trace w'
     = (now w, TrackSameState (next_handle w) entity p)
         :: (now w, Render entity) :: trace w
     ∧ period w' !! entity = Some p
     ∧ timers w'
       = timers w
           ++ [mkTimer (next_handle w) entity (now w + p) from_s to_s])
  ∧ (∀ kv r p,
       time_delta cfg = Some (StructuredDynamicExpression kv) → kv ≠ [] →
       render_complex kv sts variables = Returns r →
       validate_period time_period (RDict r) = Some p →
       trace w'
       = (now w, TrackSameState (next_handle w) entity p)
           :: (now w, Render entity) :: trace w
       ∧ period w' !! entity = Some p
       ∧ timers w'
         = timers w
             ++ [mkTimer (next_handle w) entity (now w + p) from_s to_s])
  ∧ (∀ d,
       time_delta cfg = Some (FixedDuration d) → d ≠ 0 →
       trace w'
       = (now w, TrackSameState (next_handle w) entity d) :: trace w
       ∧ period w' !! entity = Some d
       ∧ timers w'
         = timers w
             ++ [mkTimer (next_handle w) entity (now w + d) from_s to_s])
  ∧ (∀ w0 t,
       filter is_render (trace (advance_to cfg t w0))
       = filter is_render (trace w0))
  ∧ (∀ td,
       time_delta cfg = Some td → (∀ d, td ≠ FixedDuration d) →
       ∀ t sts script,
         renderings_balanced
           (trace (run time_period cfg (async_attach_trigger t sts)
                     script))).
Proof.
  intros Hl Hin Hc Hnot sts variables w'. subst sts variables.
  split; [|split; [|split; [|split]]].
  - intros t s p Htd Hs Hv.
    unfold w'. rewrite (deliver_arm _ _ _ (DynamicExpression t) p);
      try done.
    + repeat split; try done. cbn. apply lookup_insert_eq.
    + unfold try_resolve. rewrite Hs. unfold validated. by rewrite Hv.
  - intros kv r p Htd Hkv Hs Hv.
    unfold w'.
    rewrite (deliver_arm _ _ _ (StructuredDynamicExpression kv) p);
      try done.
    + repeat split; try done. cbn. apply lookup_insert_eq.
    + by destruct kv.
    + unfold try_resolve. rewrite Hs. unfold validated. by rewrite Hv.
  - intros d Htd Hd.
    unfold w'. rewrite (deliver_arm _ _ _ (FixedDuration d) d); try done.
    + repeat split; try done. cbn. apply lookup_insert_eq.
    + cbn. by apply negb_true_iff, Z.eqb_neq.
  - intros w0 t. apply advance_to_ignored, is_render_ignores.
  - intros td Htd Hr t sts' script. by apply (run_balanced td).
Qed.

End Resolution.

(** ** Claims about a sustained match *)

Section Sustained.

Context (time_period : Rendered → option Z) (cfg : Config).

Lemma check_ignores_from entity from_s from_s' to_s :
  check_numeric_state cfg entity from_s to_s
  = check_numeric_state cfg entity from_s' to_s.
Proof. done. Qed.

Lemma filter_comm {A} (P Q : A → Prop)
    `{!∀ x, Decision (P x), !∀ x, Decision (Q x)} (l : list A) :
  filter P (filter Q l) = filter Q (filter P l).
Proof. rewrite !list_filter_filter. apply list_filter_iff. tauto. Qed.

Lemma filter_one_True {A} (P : A → Prop) `{!∀ x, Decision (P x)} (x : A) :
  P x → filter P [x] = [x].
Proof. intros HP. by rewrite filter_cons_True. Qed.

Lemma filter_one_False {A} (P : A → Prop) `{!∀ x, Decision (P x)} (x : A) :
  ¬ P x → filter P [x] = [].
Proof. intros HP. by rewrite filter_cons_False. Qed.

Lemma write_state_lookup entity to_s w :
  states (write_state entity to_s w) !! entity = to_s.
Proof.
  destruct to_s; cbn; [apply lookup_insert_eq|apply lookup_delete_eq].
Qed.

Lemma write_state_lookup_ne entity e to_s w :
  entity ≠ e → states (write_state entity to_s w) !! e = states w !! e.
Proof.
  intros Hne.
  destruct to_s; cbn; [by apply lookup_insert_ne|by apply lookup_delete_ne].
Qed.

(** A change of another entity leaves a waiting entity waiting. *)
Lemma waiting_other e tm0 d js w entity from_s to_s :
  entity ≠ e →
  waiting cfg e tm0 d js w →
  waiting cfg e tm0 d js (deliver time_period cfg entity from_s to_s w).
Proof.
  intros Hne (Hin & Htm & Hp & Hc & Hj). unfold deliver.
  set (w2 := same_state_listeners cfg entity from_s to_s
               (write_state entity to_s w)).
  assert (waiting cfg e tm0 d js w2) as (Hin2 & Htm2 & Hp2 & Hc2 & Hj2).
  { repeat split; try done.
    - cbn [w2 timers same_state_listeners set_timers write_state set_states].
      rewrite filter_comm, Htm.
      apply filter_one_True. left.
      assert (tm0 ∈ filter (λ tm, t_entity tm = e) (timers w)) as Hin0
        by (rewrite Htm; apply list_elem_of_here).
      apply list_elem_of_filter in Hin0 as [-> _]. done.
    - assert (states w2 !! e = states w !! e) as ->; [|done].
      by apply write_state_lookup_ne. }
  destruct (listening w2 && bool_decide (entity ∈ entity_id cfg));
    [|done].
  destruct (listener_cases time_period cfg entity from_s to_s w2)
    as [(Hcc & ->)|[(Hcc & _ & ->)|[(Hcc & _ & Ht & st & -> & ->)
       |[(Hcc & Hnin & td & p & Htd & Ht & Hpp & ->)
        |[(Hcc & _ & td & Htd & Ht & Hpp & ->)
          |(Hcc & _ & td & Htd & Ht & Hpp & ->)]]]]]; try done.
  - repeat split; try done. cbn. set_solver.
  - repeat split; try done; cbn [entities_triggered trace emit
      set_entities_triggered]; [set_solver|].
    by rewrite jobs_of_skip.
  - repeat split; cbn [entities_triggered timers period states trace].
    + set_solver.
    + rewrite filter_app, Htm2, filter_one_False by done.
      apply app_nil_r.
    + by rewrite lookup_insert_ne.
    + done.
    + rewrite jobs_of_skip by (cbn; tauto). by rewrite jobs_of_rendering.
  - repeat split; try done. cbn [trace].
    rewrite jobs_of_skip by (cbn; tauto). by rewrite jobs_of_rendering.
  - repeat split; try done; cbn [entities_triggered trace];
      [set_solver|].
    rewrite jobs_of_skip by (cbn; tauto). by rewrite jobs_of_rendering.
Qed.

(** A matching change of the waiting entity leaves it waiting. *)
Lemma waiting_match e tm0 d js w from_s to_s :
  check_numeric_state cfg e from_s to_s = true →
  waiting cfg e tm0 d js w →
  waiting cfg e tm0 d js (deliver time_period cfg e from_s to_s w).
Proof.
  intros Hc (Hin & Htm & Hp & _ & Hj).
  rewrite (deliver_armed time_period cfg e from_s to_s w) by done.
  repeat split; try done.
  by rewrite write_state_lookup, (check_ignores_from _ _ from_s).
Qed.

(** The clock moving on: the waiting entity fires once its deadline is
    reached, and keeps waiting before that. *)
Lemma waiting_advance e tm0 d js w t st :
  truthy (time_delta cfg) = true → t_to tm0 = Some st →
  waiting cfg e tm0 d js w →
  (deadline tm0 ≤ t →
   ∃ at_, deadline tm0 ≤ at_
     ∧ settled e
         ((at_, RunJob (mkPayload (platform_type cfg) e (below cfg)
                          (above cfg) (t_from tm0) (Some st) (ForPeriod d))
                  (context st)) :: js)
         (advance_to cfg t w))
  ∧ (¬ deadline tm0 ≤ t → waiting cfg e tm0 d js (advance_to cfg t w)).
Proof.
  intros Ht Hto (Hin & Htm & Hp & Hc & Hj).
  destruct (advance_to_frame cfg t w) as (Hs&_&Htm'&_&He&_&Hpe).
  assert (filter (λ tm, t_entity tm = e)
            (merge_sort deadline_le
               (filter (λ tm, deadline tm ≤ t) (timers w)))
          = filter (λ tm, deadline tm ≤ t) [tm0]) as Hdue.
  { destruct (decide (deadline tm0 ≤ t)) as [Hd|Hd].
    - rewrite filter_one_True by done.
      apply Permutation_singleton_r.
      rewrite merge_sort_Permutation, filter_comm, Htm.
      by rewrite filter_one_True.
    - rewrite filter_one_False by done.
      apply Permutation_nil_r.
      rewrite merge_sort_Permutation, filter_comm, Htm.
      by rewrite filter_one_False. }
  split; intros Hd.
  - rewrite filter_one_True in Hdue by done.
    destruct (completions_one cfg e _ w tm0 st d Hdue Hto Ht Hp Hc)
      as (at_ & Hjobs & Hat).
    exists at_. split; [done|]. repeat split.
    + by rewrite He.
    + intros tm Htm1 E. rewrite Htm' in Htm1.
      assert (tm ∈ filter (λ tm, ¬ deadline tm ≤ t)
                     (filter (λ tm, t_entity tm = e) (timers w))) as Hin1.
      { rewrite filter_comm. apply list_elem_of_filter. split; [done|].
        done. }
      rewrite Htm, filter_one_False in Hin1 by tauto.
      by apply elem_of_nil in Hin1.
    + by rewrite advance_to_trace, Hjobs, Hj.
  - rewrite filter_one_False in Hdue by done.
    repeat split.
    + by rewrite He.
    + rewrite Htm', filter_comm, Htm. by rewrite filter_one_True.
    + by rewrite Hpe.
    + by rewrite Hs.
    + rewrite advance_to_trace, completions_other; [done|].
      intros tm Htm1 E.
      assert (tm ∈ filter (λ tm, t_entity tm = e)
                (merge_sort deadline_le
                   (filter (λ tm, deadline tm ≤ t) (timers w)))) as Hin1
        by (by apply list_elem_of_filter).
      rewrite Hdue in Hin1. by apply elem_of_nil in Hin1.
Qed.

Lemma keeps_band_not_leaves e i :
  keeps_band cfg e i → ¬ leaves_band cfg e i.
Proof.
  destruct i as [entity from_s to_s|t|]; cbn; [|tauto|tauto].
  intros H [-> Hc]. rewrite H in Hc; done.
Qed.

(** A waiting entity that stays in band while the clock reaches its
    deadline has fired exactly once at the end. *)
Lemma waiting_run e tm0 d js w st script t :
  truthy (time_delta cfg) = true → t_to tm0 = Some st →
  waiting cfg e tm0 d js w →
  Forall (keeps_band cfg e) script →
  AdvanceTo t ∈ script → deadline tm0 ≤ t →
  ∃ at_, deadline tm0 ≤ at_
    ∧ settled e
        ((at_, RunJob (mkPayload (platform_type cfg) e (below cfg)
                         (above cfg) (t_from tm0) (Some st) (ForPeriod d))
                 (context st)) :: js)
        (run time_period cfg w script).
Proof.
  intros Ht Hto. revert w.
  induction script as [|i script IH]; intros w Hw Hs Hin Hd.
  { by apply elem_of_nil in Hin. }
  apply Forall_cons in Hs as [Hi Hs]. cbn [run foldl].
  assert (∀ w1, waiting cfg e tm0 d js w1 → AdvanceTo t ∈ script →
            ∃ at_, deadline tm0 ≤ at_
              ∧ settled e
                  ((at_, RunJob (mkPayload (platform_type cfg) e (below cfg)
                                   (above cfg) (t_from tm0) (Some st)
                                   (ForPeriod d)) (context st)) :: js)
                  (foldl (step time_period cfg) w1 script)) as Hrest.
  { intros w1 Hw1 Hin1. by apply IH. }
  destruct i as [entity from_s to_s|t'|]; cbn [step].
  - apply Hrest; [|by apply elem_of_cons in Hin as [?|?]].
    destruct (decide (entity = e)) as [->|Hne].
    + apply waiting_match; [by apply Hi|done].
    + by apply waiting_other.
  - destruct (waiting_advance e tm0 d js w t' st Ht Hto Hw) as [Hfire Hwait].
    destruct (decide (deadline tm0 ≤ t')) as [Hd'|Hd'].
    + destruct (Hfire Hd') as (at_ & Hat & Hin' & Hq & Hj).
      exists at_. split; [done|].
      destruct (run_armed_quiet time_period cfg e (advance_to cfg t' w)
                  script Hq Hin') as (? & ? & Hj').
      { eapply Forall_impl; [exact Hs|]. apply keeps_band_not_leaves. }
      unfold run in *. repeat split; [done|done|]. by rewrite Hj'.
    + apply Hrest; [by apply Hwait|].
      apply elem_of_cons in Hin as [E|?]; [|done].
      injection E as ->. done.
  - done.
Qed.

(** C1, as amended.  An entity with a truthy sustain duration that
    enters the band, for which the duration resolves to [d], and which
    stays in band while the clock reaches the deadline, fires exactly
    once, at or after the duration has elapsed; the payload carries the
    states of the transition that armed the entity and the context of its
    new state, as captured at arming time, and the resolved duration. *)
Theorem sustained_match_fires_once entity from_s st td d w script t :
  wf w → listening w = true → entity ∈ entity_id cfg →
  time_delta cfg = Some td → truthy (Some td) = true →
  entity ∉ entities_triggered w →
  check_numeric_state cfg entity from_s (Some st) = true →
  resolve_period time_period td (states (write_state entity (Some st) w))
    (trigger_variables cfg entity) = Some d →
  Forall (keeps_band cfg entity) script →
  AdvanceTo t ∈ script → now w + d ≤ t →
  ∃ at_,
    jobs_of entity
      (trace (run time_period cfg w
                (StateChanged entity from_s (Some st) :: script)))
    = (at_, RunJob (mkPayload (platform_type cfg) entity (below cfg)
                      (above cfg) from_s (Some st) (ForPeriod d))
              (context st)) :: jobs_of entity (trace w)
    ∧ now w + d ≤ at_.
Proof.
  intros Hwf Hl Hin Htd Ht Hnot Hc Hp Hs Hadv Hd.
  cbn [run foldl step].
  set (tm0 := mkTimer (next_handle w) entity (now w + d) from_s (Some st)).
  assert (waiting cfg entity tm0 d (jobs_of entity (trace w))
            (deliver time_period cfg entity from_s (Some st) w)) as Hw.
  { rewrite deliver_match by done.
    rewrite (listener_arm _ _ _ _ _ _ td d) by done.
    repeat split; cbn [entities_triggered timers period states trace
                       write_state set_states].
    - set_solver.
    - rewrite filter_app, filter_one_True by done.
      rewrite filter_none; [done|].
      intros tm Htm. by apply (wf_unarmed_quiet entity w).
    - apply lookup_insert_eq.
    - by rewrite lookup_insert_eq, (check_ignores_from _ _ from_s).
    - rewrite jobs_of_skip by (cbn; tauto). apply jobs_of_rendering. }
  destruct (waiting_run entity tm0 d _ _ st script t
              ltac:(by rewrite Htd) eq_refl Hw Hs Hadv Hd)
    as (at_ & Hat & _ & _ & Hj).
  exists at_. split; [exact Hj|exact Hat].
Qed.

End Sustained.

(** ** The claims at work on the scenarios *)

Lemma armed_wf : wf Scenario.armed.
Proof. apply run_wf, wf_attach. Qed.

Lemma armed_timers : timers Scenario.armed = [Scenario.armed_timer].
Proof. reflexivity. Qed.

Lemma armed_is_armed : "sensor.t" ∈ entities_triggered Scenario.armed.
Proof. by vm_compute. Qed.

(** above=10 held for 60, readings 5 → 15 at 0 and 15 → 16 at 30: at 60
    the action fires once, with the transition 5 → 15 in its payload. *)
Lemma sustained_match_fires_once_witness :
  ∃ at_,
    jobs_of "sensor.t"
      (trace (run Scenario.time_period Scenario.above_10_for_60
                Scenario.start Scenario.drift_in_band))
    = [ (at_, RunJob (mkPayload "numeric_state" "sensor.t" None
                        (Some (inject_Z 10)) (Scenario.reading 5 0)
                        (Scenario.reading 15 1) (ForPeriod 60)) 1%nat) ]
    ∧ 60 ≤ at_.
Proof.
  apply (sustained_match_fires_once Scenario.time_period
           Scenario.above_10_for_60 "sensor.t" (Scenario.reading 5 0)
           (mkState (Some (inject_Z 15)) 1) (FixedDuration 60) 60
           Scenario.start
           [ AdvanceTo 30;
             StateChanged "sensor.t" (Scenario.reading 15 1)
               (Scenario.reading 16 2);
             AdvanceTo 60 ] 60).
  - apply wf_attach.
  - reflexivity.
  - apply list_elem_of_here.
  - reflexivity.
  - reflexivity.
  - apply not_elem_of_empty.
  - reflexivity.
  - reflexivity.
  - repeat constructor.
  - apply list_elem_of_further, list_elem_of_further, list_elem_of_here.
  - reflexivity.
Defined.

(** C1, as stated, fails: in the same run the state of the sensor when
    the timer completes is the reading 16, while the one action fired
    carries the reading 15 of the arming transition. *)
Lemma fired_payload_is_not_confirmation_state :
  let before_completion :=
    run Scenario.time_period Scenario.above_10_for_60 Scenario.start
      [ StateChanged "sensor.t" (Scenario.reading 5 0)
          (Scenario.reading 15 1);
        AdvanceTo 30;
        StateChanged "sensor.t" (Scenario.reading 15 1)
          (Scenario.reading 16 2) ] in
  let after_completion :=
    step Scenario.time_period Scenario.above_10_for_60 before_completion
      (AdvanceTo 60) in
  let fired :=
    mkPayload "numeric_state" "sensor.t" None (Some (inject_Z 10))
      (Scenario.reading 5 0) (Scenario.reading 15 1) (ForPeriod 60) in
  jobs (trace before_completion) = []
  ∧ jobs (trace after_completion) = [ (60, RunJob fired 1%nat) ]
  ∧ states before_completion !! "sensor.t" = Scenario.reading 16 2
  ∧ p_to_state fired ≠ states before_completion !! "sensor.t".
Proof.
  intros before_completion after_completion fired.
  assert (states before_completion !! "sensor.t" = Scenario.reading 16 2)
    as Hs by (by vm_compute).
  split; [by vm_compute|]. split; [by vm_compute|]. split; [done|].
  rewrite Hs. by vm_compute.
Qed.

(** The armed sensor drops to 8: its timer is cancelled and nothing is
    fired when the clock later passes 60. *)
Lemma mismatch_cancels_timer_witness :
  let w' := deliver Scenario.time_period Scenario.above_10_for_60
              "sensor.t" (Scenario.reading 15 1) (Scenario.reading 8 2)
              Scenario.armed in
  trace w' = trace Scenario.armed
  ∧ jobs_of "sensor.t"
      (trace (run Scenario.time_period Scenario.above_10_for_60 w'
                [AdvanceTo 100]))
    = jobs_of "sensor.t" (trace Scenario.armed).
Proof.
  destruct (mismatch_cancels_timer Scenario.time_period
              Scenario.above_10_for_60 "sensor.t" (Scenario.reading 15 1)
              (Scenario.reading 8 2) Scenario.armed_timer Scenario.armed)
    as (_ & _ & _ & _ & Htr & _ & Hno).
  - apply armed_wf.
  - reflexivity.
  - apply list_elem_of_here.
  - apply list_elem_of_here.
  - reflexivity.
  - reflexivity.
  - split; [exact Htr|]. apply Hno. repeat constructor. cbn. tauto.
Defined.

(** With a delay template and no delay entity the rendering raises a
    template error: the first matching change renders, logs the error,
    and that is all. *)
Lemma resolution_failure_aborts_episode_witness :
  trace (deliver Scenario.time_period Scenario.above_10_for_template
           "sensor.t" (Scenario.reading 5 0) (Scenario.reading 15 1)
           Scenario.start)
  = [ (0, LogError "heating"); (0, Render "sensor.t") ].
Proof.
  destruct (resolution_failure_aborts_episode Scenario.time_period
              Scenario.above_10_for_template "sensor.t"
              (Scenario.reading 5 0) (Scenario.reading 15 1)
              (DynamicExpression Scenario.delay_template) Scenario.start)
    as (H & _).
  - reflexivity.
  - reflexivity.
  - reflexivity.
  - apply list_elem_of_here.
  - reflexivity.
  - apply not_elem_of_empty.
  - left. reflexivity.
  - rewrite H. reflexivity.
Defined.

(** C5, as stated, fails: a rendering that raises an exception which is
    not a template error is a failed resolution too, but the [except]
    clause does not catch it.  Nothing is logged and the entity, added to
    [entities_triggered] before the [try], stays there without a timer;
    a further matching change finds it armed and starts nothing. *)
Lemma uncaught_failure_leaves_entity_armed :
  let w' := deliver Scenario.time_period
              Scenario.above_10_for_raising_template "sensor.t"
              (Scenario.reading 5 0) (Scenario.reading 15 1)
              Scenario.start in
  let w'' := deliver Scenario.time_period
               Scenario.above_10_for_raising_template "sensor.t"
               (Scenario.reading 15 1) (Scenario.reading 16 2) w' in
  try_resolve Scenario.time_period
    (DynamicExpression (λ _ _, RaisesOther)) (states w')
    (trigger_variables Scenario.above_10_for_raising_template "sensor.t")
  = Propagated
  ∧ filter is_log_error (trace w') = []
  ∧ "sensor.t" ∈ entities_triggered w'
  ∧ timers w' = []
  ∧ trace w'' = trace w'
  ∧ timers w'' = [].
Proof.
  intros w' w''. split; [reflexivity|]. split; [by vm_compute|].
  split; [by vm_compute|]. split; [by vm_compute|].
  split; by vm_compute.
Qed.

(** The armed sensor moves on to 16: nothing but the state machine
    changes, the timer still runs towards 60. *)
Lemma armed_match_changes_nothing_witness :
  timers (deliver Scenario.time_period Scenario.above_10_for_60 "sensor.t"
            (Scenario.reading 15 1) (Scenario.reading 16 2) Scenario.armed)
  = [Scenario.armed_timer].
Proof.
  destruct (armed_match_changes_nothing Scenario.time_period
              Scenario.above_10_for_60 "sensor.t" (Scenario.reading 15 1)
              (Scenario.reading 16 2) Scenario.armed)
    as (_ & _ & H & _).
  - apply armed_is_armed.
  - reflexivity.
  - rewrite H. reflexivity.
Defined.

(** The delay template read 60 for the first episode; after the delay
    entity was raised the next episode renders it anew, with the trigger
    variables of the sensor, and starts its timer with 30. *)
Lemma duration_resolved_once_per_episode_witness :
  let w := run Scenario.time_period Scenario.above_10_for_template
             Scenario.start Scenario.delay_raised in
  let w' := deliver Scenario.time_period Scenario.above_10_for_template
              "sensor.t" (Scenario.reading 8 3) (Scenario.reading 20 5) w in
  period w !! "sensor.t" = Some 60
  ∧ trace w'
    = (now w, TrackSameState (next_handle w) "sensor.t" 30)
        :: (now w, Render "sensor.t") :: trace w
  ∧ period w' !! "sensor.t" = Some 30
  ∧ timers w'
    = timers w
        ++ [mkTimer (next_handle w) "sensor.t" (now w + 30)
              (Scenario.reading 8 3) (Scenario.reading 20 5)].
Proof.
  intros w w'. split; [by vm_compute|].
  destruct (duration_resolved_once_per_episode Scenario.time_period
              Scenario.above_10_for_template "sensor.t"
              (Scenario.reading 8 3) (Scenario.reading 20 5) w)
    as (H & _).
  - reflexivity.
  - apply list_elem_of_here.
  - reflexivity.
  - by vm_compute.
  - apply (H Scenario.delay_template "30" 30).
    + reflexivity.
    + by vm_compute.
    + reflexivity.
Defined.

(** Removing the trigger while the sensor is armed: the timer is gone
    and the clock passing 60 fires nothing. *)
Lemma async_remove_stops_firing_witness :
  timers (async_remove Scenario.armed) = []
  ∧ trace (run Scenario.time_period Scenario.above_10_for_60
             (async_remove Scenario.armed) [AdvanceTo 100])
    = trace Scenario.armed.
Proof.
  destruct (async_remove_stops_firing Scenario.time_period
              Scenario.above_10_for_60 Scenario.armed armed_wf)
    as (_ & Ht & _ & _ & _ & Hrun).
  split; [exact Ht|apply Hrun].
Defined.

(** C9, as stated, fails: after removing the trigger while the sensor is
    armed, the sensor is still in [entities_triggered] and its period is
    still in [period]. *)
Lemma async_remove_keeps_armed_and_period :
  "sensor.t" ∈ entities_triggered (async_remove Scenario.armed)
  ∧ period (async_remove Scenario.armed) !! "sensor.t" = Some 60
  ∧ unsub_track_same (async_remove Scenario.armed) !! "sensor.t" = None.
Proof. split; [by vm_compute|]. split; by vm_compute. Qed.

(** A zero duration: 5 → 15 fires at once, with the configured zero
    duration as ["for"]. *)
Lemma zero_duration_fires_immediately_witness :
  trace (deliver Scenario.time_period Scenario.above_10_for_0 "sensor.t"
           (Scenario.reading 5 0) (Scenario.reading 15 1) Scenario.start)
  = [ (0, RunJob (mkPayload "numeric_state" "sensor.t" None
                    (Some (inject_Z 10)) (Scenario.reading 5 0)
                    (Scenario.reading 15 1)
                    (ForConfigured (Some (FixedDuration 0)))) 1%nat) ].
Proof.
  destruct (zero_duration_fires_immediately Scenario.time_period
              Scenario.above_10_for_0 "sensor.t" (Scenario.reading 5 0)
              (mkState (Some (inject_Z 15)) 1) Scenario.start)
    as (H & _).
  - reflexivity.
  - reflexivity.
  - apply list_elem_of_here.
  - reflexivity.
  - apply not_elem_of_empty.
  - exact H.
Defined.

(** A template that renders a zero delay is truthy all the same: the
    first matching change starts a timer of period 0 and fires nothing in
    that step. *)
Lemma zero_template_starts_timer :
  trace (deliver Scenario.time_period Scenario.above_10_for_zero_template
           "sensor.t" (Scenario.reading 5 0) (Scenario.reading 15 1)
           Scenario.start)
  = [ (0, TrackSameState 0 "sensor.t" 0); (0, Render "sensor.t") ].
Proof. reflexivity. Qed.

(** * Further properties of the trigger *)

(** ** Worlds reached from attaching *)

Section Reachable.

Context (time_period : Rendered → option Z) (cfg : Config).

(** A delivery either stops at the trackers, or goes on to the listener
    with the subscription alive and the entity configured. *)
Lemma deliver_cases entity from_s to_s w :
  let w2 := same_state_listeners cfg entity from_s to_s
              (write_state entity to_s w) in
  ((listening w = false ∨ entity ∉ entity_id cfg)
   ∧ deliver time_period cfg entity from_s to_s w = w2)
  ∨ (listening w = true ∧ entity ∈ entity_id cfg
     ∧ deliver time_period cfg entity from_s to_s w
       = state_automation_listener time_period cfg entity from_s to_s w2).
Proof.
  intros w2. unfold deliver. fold w2.
  assert (listening w2 = listening w) as -> by done.
  destruct (listening w) eqn:Hl; cbn [andb]; [|left; auto].
  destruct (decide (entity ∈ entity_id cfg)) as [Hin|Hin].
  - right. by rewrite bool_decide_eq_true_2.
  - left. rewrite bool_decide_eq_false_2 by done. auto.
Qed.

Lemma check_true_some entity from_s to_s :
  check_numeric_state cfg entity from_s to_s = true →
  ∃ st, to_s = Some st.
Proof. destruct to_s as [st|]; [eauto|done]. Qed.

Lemma step_configured w i :
  configured cfg w → configured cfg (step time_period cfg w i).
Proof.
  intros (He & Hp & Hu). destruct i as [entity from_s to_s|t|]; cbn [step].
  - destruct (deliver_cases entity from_s to_s w) as [[_ ->]|(_ & Hin & ->)];
      [done|].
    destruct (listener_cases time_period cfg entity from_s to_s
                (same_state_listeners cfg entity from_s to_s
                   (write_state entity to_s w)))
      as [(Hc & ->)|[(Hc & _ & ->)|[(Hc & _ & Ht & st & -> & ->)
         |[(Hc & _ & td & p & Htd & Ht & Hpp & ->)
          |[(Hc & _ & td & Htd & Ht & Hpp & ->)
          |(Hc & _ & td & Htd & Ht & Hpp & ->)]]]]]; try done.
    + split; [|done]. intros e. cbn. set_solver.
    + split; [|done]. intros e. cbn.
      rewrite elem_of_union, elem_of_singleton. intros [->|?]; auto.
    + repeat split; intros e; cbn.
      * rewrite elem_of_union, elem_of_singleton. intros [->|?]; auto.
      * rewrite lookup_insert_is_Some. intros [<-|[_ ?]]; auto.
      * rewrite lookup_insert_is_Some. intros [<-|[_ ?]]; auto.
    + split; [|done]. intros e. cbn.
      rewrite elem_of_union, elem_of_singleton. intros [->|?]; auto.
  - destruct (advance_to_frame cfg t w) as (_&_&_&_&He'&Hu'&Hp').
    unfold configured. by rewrite He', Hu', Hp'.
  - rewrite async_remove_eq. repeat split; [done|done|].
    intros e. cbn. rewrite lookup_empty. by intros [? ?].
Qed.

Lemma step_timers_sound w i :
  timers_sound cfg w → timers_sound cfg (step time_period cfg w i).
Proof.
  intros Hs. destruct i as [entity from_s to_s|t|]; cbn [step].
  - set (w2 := same_state_listeners cfg entity from_s to_s
                 (write_state entity to_s w)).
    assert (timers_sound cfg w2) as Hs2.
    { intros tm Htm. apply same_state_listeners_timers in Htm.
      by apply Hs. }
    destruct (deliver_cases entity from_s to_s w) as [[_ ->]|(_ & Hin & ->)];
      [done|]. fold w2.
    destruct (listener_cases time_period cfg entity from_s to_s w2)
      as [(Hc & ->)|[(Hc & _ & ->)|[(Hc & _ & Ht & st & -> & ->)
         |[(Hc & _ & td & p & Htd & Ht & Hpp & ->)
          |[(Hc & _ & td & Htd & Ht & Hpp & ->)
          |(Hc & _ & td & Htd & Ht & Hpp & ->)]]]]]; try done.
    intros tm. cbn [timers period].
    rewrite elem_of_app, list_elem_of_singleton. intros [Htm| ->].
    + destruct (Hs2 tm Htm) as (? & ? & ?). repeat split; [done| |done].
      rewrite lookup_insert_is_Some.
      destruct (decide (entity = t_entity tm)); auto.
    + cbn [t_entity t_to t_from]. split; [by rewrite Htd|].
      split; [rewrite lookup_insert_eq; eauto|].
      destruct (check_true_some _ _ _ Hc) as [st ->]. eauto.
  - destruct (advance_to_frame cfg t w) as (_&_&Ht&_&_&_&Hp).
    intros tm. rewrite Ht, Hp, list_elem_of_filter. intros [_ Htm].
    by apply Hs.
  - rewrite async_remove_eq. intros tm. cbn [timers period].
    rewrite list_elem_of_filter. intros [_ Htm]. by apply Hs.
Qed.

(** Timers whose closures are sound complete soundly. *)
Lemma completions_sound l w :
  (∀ tm, tm ∈ l →
     t_entity tm ∈ entity_id cfg
     ∧ truthy (time_delta cfg) = true
     ∧ is_Some (period w !! t_entity tm)
     ∧ ∃ st, t_to tm = Some st
         ∧ check_numeric_state cfg (t_entity tm) (t_from tm) (Some st)
           = true) →
  Forall (entry_sound cfg) (trace w) →
  Forall (entry_sound cfg) (trace (foldl (state_for_listener cfg) w l)).
Proof.
  revert w. induction l as [|tm l IH]; intros w Hl Htr; [done|].
  cbn [foldl]. apply IH.
  - pose proof (state_for_listener_frame cfg w tm) as (_&_&_&_&_&_&Hp).
    intros tm' Htm'. rewrite Hp. apply Hl. set_solver.
  - destruct (Hl tm) as (Hin & Ht & [d Hd] & st & Hto & Hc); [set_solver|].
    unfold state_for_listener.
    destruct (check_numeric_state cfg (t_entity tm) (states _ !! _) _);
      [|done].
    rewrite Hto. erewrite call_action_period by done.
    cbn [trace emit set_now]. apply Forall_cons. split; [|done].
    cbn. repeat split; try done. eauto.
Qed.

Lemma step_entry_sound w i :
  tracked w → configured cfg w → timers_sound cfg w →
  Forall (entry_sound cfg) (trace w) →
  Forall (entry_sound cfg) (trace (step time_period cfg w i)).
Proof.
  intros Htr (He & _ & _) Hs Hf.
  destruct i as [entity from_s to_s|t|]; cbn [step].
  - destruct (deliver_cases entity from_s to_s w) as [[_ ->]|(_ & Hin & ->)];
      [done|].
    destruct (listener_cases time_period cfg entity from_s to_s
                (same_state_listeners cfg entity from_s to_s
                   (write_state entity to_s w)))
      as [(Hc & ->)|[(Hc & _ & ->)|[(Hc & _ & Ht & st & -> & ->)
         |[(Hc & _ & td & p & Htd & Ht & Hpp & ->)
          |[(Hc & _ & td & Htd & Ht & Hpp & ->)
          |(Hc & _ & td & Htd & Ht & Hpp & ->)]]]]]; try done.
    + cbn [trace emit set_entities_triggered same_state_listeners
           set_timers write_state set_states].
      apply Forall_cons. split; [|done]. cbn. repeat split; try done. eauto.
    + cbn [trace same_state_listeners set_timers write_state set_states].
      apply Forall_cons. split; [done|]. unfold rendering.
      destruct (renders td); [|done]. by apply Forall_cons.
    + cbn [trace same_state_listeners set_timers write_state set_states].
      apply Forall_cons. split; [done|]. unfold rendering.
      destruct (renders td); [|done]. by apply Forall_cons.
    + cbn [trace same_state_listeners set_timers write_state set_states].
      apply Forall_cons. split; [done|]. unfold rendering.
      destruct (renders td); [|done]. by apply Forall_cons.
  - rewrite advance_to_trace. apply completions_sound; [|done].
    intros tm. rewrite merge_sort_Permutation, list_elem_of_filter.
    intros [_ Htm]. destruct (Hs tm Htm) as (? & ? & ?).
    split; [|done]. apply He. by destruct (Htr tm Htm) as (_ & _ & ?).
  - by rewrite async_remove_eq.
Qed.

End Reachable.

Section ReachableMore.

Context (time_period : Rendered → option Z) (cfg : Config).

(** A resolved period is the fixed duration itself, or it has passed
    [cv.positive_timedelta]. *)
Lemma resolve_period_sound td sts variables p :
  resolve_period time_period td sts variables = Some p →
  match td with FixedDuration d0 => p = d0 | _ => 0 ≤ p end.
Proof.
  assert (∀ r, validated time_period r = Stored p → 0 ≤ p) as Hv.
  { intros r. unfold validated, validate_period, positive_timedelta.
    destruct (time_period r) as [d|]; [|done].
    destruct (d <? 0) eqn:Hd; [done|]. intros [= <-]. lia. }
  rewrite resolve_period_stored.
  destruct td as [d0|t|kv]; cbn.
  - by intros [= ->].
  - destruct (t sts variables); [apply Hv|done|done].
  - destruct (render_complex kv sts variables); [apply Hv|done|done].
Qed.

(** What holds of the trace and of whatever [call_action] adds to it
    holds after timers complete. *)
Lemma completions_forall (P : Z * Effect → Prop) l w :
  (∀ t p ctx, P (t, RunJob p ctx)) → (∀ t exn, P (t, Raise exn)) →
  Forall P (trace w) →
  Forall P (trace (foldl (state_for_listener cfg) w l)).
Proof.
  intros Hj Hr. revert w. induction l as [|tm l IH]; intros w Hw; [done|].
  cbn [foldl]. apply IH. unfold state_for_listener.
  destruct (check_numeric_state cfg (t_entity tm) (states _ !! _) _);
    [|done].
  unfold call_action.
  destruct (if negb _ then _ else _); [destruct (t_to tm)|];
    cbn [trace emit set_now]; by apply Forall_cons.
Qed.

Lemma step_started_sound w i :
  Forall (started_sound cfg) (trace w) →
  Forall (started_sound cfg) (trace (step time_period cfg w i)).
Proof.
  intros Hf. destruct i as [entity from_s to_s|t|]; cbn [step].
  - destruct (deliver_cases time_period cfg entity from_s to_s w)
      as [[_ ->]|(_ & Hin & ->)]; [done|].
    destruct (listener_cases time_period cfg entity from_s to_s
                (same_state_listeners cfg entity from_s to_s
                   (write_state entity to_s w)))
      as [(Hc & ->)|[(Hc & _ & ->)|[(Hc & _ & Ht & st & -> & ->)
         |[(Hc & _ & td & p & Htd & Ht & Hpp & ->)
          |[(Hc & _ & td & Htd & Ht & Hpp & ->)
          |(Hc & _ & td & Htd & Ht & Hpp & ->)]]]]]; try done.
    + cbn [trace emit set_entities_triggered same_state_listeners
           set_timers write_state set_states].
      by apply Forall_cons.
    + cbn [trace same_state_listeners set_timers write_state set_states].
      apply Forall_cons. split.
      * unfold started_sound. cbn [snd]. rewrite Htd.
        apply resolve_period_sound in Hpp. by destruct td.
      * unfold rendering. destruct (renders td); [|done].
        by apply Forall_cons.
    + cbn [trace same_state_listeners set_timers write_state set_states].
      apply Forall_cons. split; [done|]. unfold rendering.
      destruct (renders td); [|done]. by apply Forall_cons.
    + cbn [trace same_state_listeners set_timers write_state set_states].
      apply Forall_cons. split; [done|]. unfold rendering.
      destruct (renders td); [|done]. by apply Forall_cons.
  - rewrite advance_to_trace. by apply completions_forall.
  - by rewrite async_remove_eq.
Qed.

Lemma length_filter_filter {A} (P Q : A → Prop)
    `{!∀ x, Decision (P x), !∀ x, Decision (Q x)} (l : list A) :
  (length (filter P (filter Q l)) ≤ length (filter P l))%nat.
Proof. rewrite filter_comm. apply length_filter. Qed.

Lemma step_single_timer w i :
  tracked w → single_timer w → single_timer (step time_period cfg w i).
Proof.
  intros Htr Hs. destruct i as [entity from_s to_s|t|]; cbn [step].
  - set (w2 := same_state_listeners cfg entity from_s to_s
                 (write_state entity to_s w)).
    assert (single_timer w2) as Hs2.
    { intros e. etrans; [apply length_filter_filter|apply Hs]. }
    assert (tracked w2) as Htr2.
    { intros tm Htm. apply same_state_listeners_timers in Htm.
      by apply Htr. }
    destruct (deliver_cases time_period cfg entity from_s to_s w)
      as [[_ ->]|(_ & Hin & ->)]; [done|]. fold w2.
    destruct (listener_cases time_period cfg entity from_s to_s w2)
      as [(Hc & ->)|[(Hc & _ & ->)|[(Hc & _ & Ht & st & -> & ->)
         |[(Hc & Hnin & td & p & Htd & Ht & Hpp & ->)
          |[(Hc & _ & td & Htd & Ht & Hpp & ->)
          |(Hc & _ & td & Htd & Ht & Hpp & ->)]]]]]; try done.
    intros e. cbn [timers]. rewrite filter_app, length_app.
    destruct (decide (entity = e)) as [<-|Hne].
    + rewrite (filter_none _ (timers w2)); [by rewrite filter_one_True|].
      intros tm Htm E. apply Hnin. rewrite <-E.
      by destruct (Htr2 tm Htm) as (_ & _ & ?).
    + rewrite filter_one_False by done. cbn [length].
      rewrite Nat.add_0_r. apply Hs2.
  - destruct (advance_to_frame cfg t w) as (_&_&Ht&_).
    intros e. rewrite Ht. etrans; [apply length_filter_filter|apply Hs].
  - rewrite async_remove_eq. intros e. cbn [timers].
    etrans; [apply length_filter_filter|apply Hs].
Qed.

Lemma step_armed_matches w i :
  configured cfg w → armed_matches cfg w →
  armed_matches cfg (step time_period cfg w i).
Proof.
  intros (He & _ & _) Ha. destruct i as [entity from_s to_s|t|]; cbn [step].
  - set (w2 := same_state_listeners cfg entity from_s to_s
                 (write_state entity to_s w)).
    assert (∀ e, e ≠ entity → e ∈ entities_triggered w →
              listening w = true →
              check_numeric_state cfg e (states w2 !! e) (states w2 !! e)
              = true) as Hother.
    { intros e Hne Hin Hl.
      assert (states w2 !! e = states w !! e) as ->
        by (by apply write_state_lookup_ne).
      by apply Ha. }
    assert (check_numeric_state cfg entity from_s to_s = true →
            check_numeric_state cfg entity (states w2 !! entity)
              (states w2 !! entity) = true) as Hself.
    { intros Hc.
      assert (states w2 !! entity = to_s) as ->
        by apply write_state_lookup.
      by rewrite (check_ignores_from cfg _ _ from_s). }
    destruct (deliver_cases time_period cfg entity from_s to_s w)
      as [[Hno ->]|(Hl & Hin & ->)]; fold w2.
    + intros Hl e Hin. change (listening w = true) in Hl.
      apply Hother; [|done|done].
      intros ->. destruct Hno as [Hno|Hno]; [congruence|].
      by apply Hno, He.
    + destruct (listener_cases time_period cfg entity from_s to_s w2)
        as [(Hc & ->)|[(Hc & _ & ->)|[(Hc & _ & Ht & st & -> & ->)
           |[(Hc & _ & td & p & Htd & Ht & Hpp & ->)
            |[(Hc & Hnin & td & Htd & Ht & Hpp & ->)
          |(Hc & Hnin & td & Htd & Ht & Hpp & ->)]]]]];
        intros _ e; cbn [entities_triggered states emit
                         set_entities_triggered].
      * rewrite elem_of_difference, not_elem_of_singleton.
        intros [Hin' Hne]. by apply Hother.
      * intros Hin'. destruct (decide (e = entity)) as [->|Hne];
          [by apply Hself|by apply Hother].
      * rewrite elem_of_union, elem_of_singleton. intros [->|Hin'];
          [by apply Hself|].
        destruct (decide (e = entity)) as [->|Hne];
          [by apply Hself|by apply Hother].
      * rewrite elem_of_union, elem_of_singleton. intros [->|Hin'];
          [by apply Hself|].
        destruct (decide (e = entity)) as [->|Hne];
          [by apply Hself|by apply Hother].
      * intros Hin'. apply Hother; [|done|done]. by intros ->.
      * rewrite elem_of_union, elem_of_singleton. intros [->|Hin'];
          [by apply Hself|].
        destruct (decide (e = entity)) as [->|Hne];
          [by apply Hself|by apply Hother].
  - destruct (advance_to_frame cfg t w) as (Hs&Hl&_&_&He'&_).
    unfold armed_matches. rewrite Hs, Hl, He'. apply Ha.
  - rewrite async_remove_eq. by intros Hl.
Qed.

Lemma sound_attach t sts : sound cfg (async_attach_trigger t sts).
Proof.
  split; [apply wf_attach|]. split.
  { repeat split; intros e; cbn; [set_solver| |];
      rewrite lookup_empty; by intros [? ?]. }
  split; [intros tm Htm; by apply elem_of_nil in Htm|].
  split; [done|]. split; [done|]. split; [intros e; cbn; lia|].
  intros _ e. cbn. set_solver.
Qed.

Lemma step_sound w i : sound cfg w → sound cfg (step time_period cfg w i).
Proof.
  intros (Hwf & Hc & Ht & He & Hst & Hs & Ha).
  split; [by apply step_wf|]. split; [by apply step_configured|].
  split; [by apply step_timers_sound|].
  split; [apply step_entry_sound; try done; apply Hwf|].
  split; [by apply step_started_sound|].
  split; [apply step_single_timer; [apply Hwf|done]|].
  by apply step_armed_matches.
Qed.

Lemma run_sound w script :
  sound cfg w → sound cfg (run time_period cfg w script).
Proof.
  revert w. induction script as [|i script IH]; intros w Hs; [done|].
  cbn. apply IH. by apply step_sound.
Qed.

End ReachableMore.

(** ** Every run from attaching *)

Section EveryRun.

Context (time_period : Rendered → option Z) (cfg : Config).

Lemma filter_all {A} (P : A → Prop) `{!∀ x, Decision (P x)} (l : list A) :
  (∀ x, x ∈ l → P x) → filter P l = l.
Proof.
  induction l as [|x l IH]; intros Hl; [done|].
  rewrite filter_cons_True by (apply Hl; set_solver).
  f_equal. apply IH. intros y Hy. apply Hl. set_solver.
Qed.

Lemma attached_sound t sts script :
  sound cfg (run time_period cfg (async_attach_trigger t sts) script).
Proof. apply run_sound, sound_attach. Qed.

(** X1. Whatever the run, an action that was fired carries the
    configured platform type and bounds and a configured entity, its new
    state is a state that matched the band when it was delivered, and its
    context is the context of that state. *)
Theorem fired_payloads_are_sound t sts script at_ p ctx :
  (at_, RunJob p ctx)
    ∈ trace (run time_period cfg (async_attach_trigger t sts) script) →
  p_platform p = platform_type cfg
  ∧ p_below p = below cfg ∧ p_above p = above cfg
  ∧ p_entity_id p ∈ entity_id cfg
  ∧ ∃ st, p_to_state p = Some st ∧ ctx = context st
      ∧ check_numeric_state cfg (p_entity_id p) (p_from_state p) (Some st)
        = true.
Proof.
  intros Hin.
  destruct (attached_sound t sts script) as (_ & _ & _ & Hf & _).
  rewrite Forall_forall in Hf. exact (Hf _ Hin).
Qed.

(** X2. Whatever the run, [call_action] never raises: [period[entity]]
    is there whenever it is read, and [to_s] is a state whenever its
    context is read. *)
Theorem call_action_never_raises t sts script :
  filter is_raise
    (trace (run time_period cfg (async_attach_trigger t sts) script))
  = [].
Proof.
  destruct (attached_sound t sts script) as (_ & _ & _ & Hf & _).
  apply filter_none. intros [at_ x] Hin.
  rewrite Forall_forall in Hf. specialize (Hf _ Hin).
  unfold is_raise, entry_sound in *. cbn in *. destruct x; tauto.
Qed.

(** X3. Whatever the run, at most one same-state timer is live for an
    entity. *)
Theorem one_timer_per_entity t sts script e :
  (length (filter (λ tm, t_entity tm = e)
             (timers (run time_period cfg (async_attach_trigger t sts)
                        script))) ≤ 1)%nat.
Proof.
  destruct (attached_sound t sts script) as (_ & _ & _ & _ & _ & Hs & _).
  apply Hs.
Qed.

(** X4. Whatever the run, the three containers hold configured entities
    only. *)
Theorem containers_hold_configured_entities t sts script :
  let w := run time_period cfg (async_attach_trigger t sts) script in
  entities_triggered w ⊆ list_to_set (entity_id cfg)
  ∧ dom (period w) ⊆ list_to_set (entity_id cfg)
  ∧ dom (unsub_track_same w) ⊆ list_to_set (entity_id cfg).
Proof.
  intros w.
  destruct (attached_sound t sts script) as (_ & (He & Hp & Hu) & _).
  repeat split; intros e; rewrite elem_of_list_to_set.
  - apply He.
  - rewrite elem_of_dom. apply Hp.
  - rewrite elem_of_dom. apply Hu.
Qed.

(** X5. A change of an entity that is not configured does nothing but
    write the state machine, whatever the run before it. *)
Theorem unconfigured_entity_only_writes_state t sts script e from_s to_s :
  e ∉ entity_id cfg →
  let w := run time_period cfg (async_attach_trigger t sts) script in
  deliver time_period cfg e from_s to_s w = write_state e to_s w.
Proof.
  intros Hnot w.
  destruct (attached_sound t sts script)
    as ([Htr _] & (He & _ & _) & _). fold w in Htr, He.
  unfold deliver.
  assert (same_state_listeners cfg e from_s to_s (write_state e to_s w)
          = write_state e to_s w) as ->.
  { unfold same_state_listeners. rewrite filter_all; [done|].
    intros tm Htm. left. intros E. apply Hnot, He. rewrite <-E.
    by destruct (Htr tm Htm) as (_ & _ & ?). }
  by rewrite bool_decide_eq_false_2, andb_false_r.
Qed.

End EveryRun.

(** ** One entity beside another *)

Section Beside.

Context (time_period : Rendered → option Z) (cfg : Config).

(** X6. A change of one entity leaves untouched what belongs to another:
    whether it is armed, its period, its timer handle, its live timers
    and what was fired for it. *)
Theorem entities_are_isolated entity e from_s to_s w :
  entity ≠ e →
  entity_view e (deliver time_period cfg entity from_s to_s w)
  = entity_view e w.
Proof.
  intros Hne.
  set (w2 := same_state_listeners cfg entity from_s to_s
               (write_state entity to_s w)).
  assert (entity_view e w2 = entity_view e w) as H2.
  { unfold entity_view, w2. cbn. do 2 f_equal.
    rewrite list_filter_filter. apply list_filter_iff.
    intros tm. split; [tauto|]. intros E. split; [done|]. left.
    by rewrite E. }
  destruct (deliver_cases time_period cfg entity from_s to_s w)
    as [[_ ->]|(_ & _ & ->)]; fold w2; [done|].
  rewrite <-H2.
  destruct (listener_cases time_period cfg entity from_s to_s w2)
    as [(Hc & ->)|[(Hc & _ & ->)|[(Hc & _ & Ht & st & -> & ->)
       |[(Hc & Hnin & td & p & Htd & Ht & Hpp & ->)
        |[(Hc & _ & td & Htd & Ht & Hpp & ->)
          |(Hc & _ & td & Htd & Ht & Hpp & ->)]]]]]; try done;
    unfold entity_view;
    cbn [entities_triggered period unsub_track_same timers trace emit
         set_entities_triggered].
  - do 4 f_equal. apply bool_decide_ext. set_solver.
  - rewrite jobs_of_skip by (cbn; tauto).
    do 4 f_equal. apply bool_decide_ext. set_solver.
  - rewrite jobs_of_skip by (cbn; tauto). rewrite jobs_of_rendering.
    rewrite !lookup_insert_ne by done.
    rewrite filter_app, filter_one_False, app_nil_r by done.
    do 4 f_equal. apply bool_decide_ext. set_solver.
  - rewrite jobs_of_skip by (cbn; tauto). by rewrite jobs_of_rendering.
  - rewrite jobs_of_skip by (cbn; tauto). rewrite jobs_of_rendering.
    do 4 f_equal. apply bool_decide_ext. set_solver.
Qed.

(** [call_action] adds at most one action, and none for another
    entity. *)
Lemma call_action_budget entity e from_s to_s w :
  (length (jobs_of e (trace (call_action cfg entity from_s to_s w)))
   ≤ length (jobs_of e (trace w))
     + (if decide (entity = e) then 1 else 0))%nat.
Proof.
  destruct (decide (entity = e)) as [->|Hne].
  - unfold call_action, jobs_of.
    destruct (if negb _ then _ else _); [destruct to_s|];
      cbn [trace emit]; rewrite filter_cons; case_decide; cbn [length];
      lia.
  - rewrite call_action_other by done. lia.
Qed.

Lemma completions_budget e l w :
  (length (jobs_of e (trace (foldl (state_for_listener cfg) w l)))
   ≤ length (jobs_of e (trace w))
     + length (filter (λ tm, t_entity tm = e) l))%nat.
Proof.
  revert w. induction l as [|tm l IH]; intros w; cbn [foldl]; [cbn; lia|].
  etrans; [apply IH|].
  assert (length (jobs_of e (trace (state_for_listener cfg w tm)))
          ≤ length (jobs_of e (trace w))
            + (if decide (t_entity tm = e) then 1 else 0))%nat as Hone.
  { unfold state_for_listener.
    destruct (check_numeric_state cfg (t_entity tm) (states _ !! _) _).
    - etrans; [apply call_action_budget|]. cbn [trace set_now]. lia.
    - cbn [trace set_now]. lia. }
  rewrite filter_cons. destruct (decide (t_entity tm = e)); cbn [length]; lia.
Qed.

Lemma due_split e (t : Z) (l : list Timer) :
  (length (filter (λ tm, t_entity tm = e)
             (merge_sort deadline_le (filter (λ tm, (deadline tm ≤ t)%Z) l)))
   + length (filter (λ tm, t_entity tm = e)
               (filter (λ tm, ¬ (deadline tm ≤ t)%Z) l))
   = length (filter (λ tm, t_entity tm = e) l))%nat.
Proof.
  rewrite merge_sort_Permutation.
  rewrite (filter_comm _ (λ tm, (deadline tm ≤ t)%Z)).
  rewrite (filter_comm _ (λ tm, ¬ (deadline tm ≤ t)%Z)).
  rewrite <-length_app. by rewrite filter_app_complement.
Qed.

(** An input adds to the actions and live timers of an entity at most
    one, and only when it is a matching change of that entity. *)
Lemma step_budget e w i :
  (length (jobs_of e (trace (step time_period cfg w i)))
   + length (filter (λ tm, t_entity tm = e)
               (timers (step time_period cfg w i)))
   ≤ length (jobs_of e (trace w))
     + length (filter (λ tm, t_entity tm = e) (timers w))
     + (if decide (enters_band cfg e i) then 1 else 0))%nat.
Proof.
  destruct i as [entity from_s to_s|t|]; cbn [step].
  - set (w2 := same_state_listeners cfg entity from_s to_s
                 (write_state entity to_s w)).
    assert (length (filter (λ tm, t_entity tm = e) (timers w2))
            ≤ length (filter (λ tm, t_entity tm = e) (timers w)))%nat as H2
      by apply length_filter_filter.
    assert (trace w2 = trace w) as Htr2 by done.
    destruct (deliver_cases time_period cfg entity from_s to_s w)
      as [[_ ->]|(_ & _ & ->)]; fold w2; [rewrite Htr2; lia|].
    destruct (listener_cases time_period cfg entity from_s to_s w2)
      as [(Hc & ->)|[(Hc & _ & ->)|[(Hc & _ & Ht & st & -> & ->)
         |[(Hc & Hnin & td & p & Htd & Ht & Hpp & ->)
          |[(Hc & _ & td & Htd & Ht & Hpp & ->)
          |(Hc & _ & td & Htd & Ht & Hpp & ->)]]]]];
      cbn [timers trace emit set_entities_triggered]; rewrite ?Htr2.
    + lia.
    + lia.
    + unfold jobs_of at 1. rewrite filter_cons.
      destruct (decide (is_job_of e _)) as [He|He]; cbn [length].
      * cbn in He. subst entity. rewrite decide_True by done.
        fold (jobs_of e (trace w)). lia.
      * fold (jobs_of e (trace w)). lia.
    + rewrite jobs_of_skip by (cbn; tauto). rewrite jobs_of_rendering.
      rewrite filter_app, length_app, filter_cons, filter_nil.
      destruct (decide (t_entity _ = e)) as [He|He]; cbn [length].
      * cbn in He. subst entity. rewrite decide_True by done. lia.
      * lia.
    + rewrite jobs_of_skip by (cbn; tauto). rewrite jobs_of_rendering. lia.
    + rewrite jobs_of_skip by (cbn; tauto). rewrite jobs_of_rendering. lia.
  - destruct (advance_to_frame cfg t w) as (_&_&Ht&_).
    rewrite Ht, advance_to_trace.
    pose proof (completions_budget e
      (merge_sort deadline_le (filter (λ tm, deadline tm ≤ t) (timers w)))
      w) as Hb.
    pose proof (due_split e t (timers w)) as Hsplit.
    rewrite decide_False by (cbn; tauto). lia.
  - rewrite async_remove_eq. cbn [timers trace].
    pose proof (length_filter_filter (λ tm, t_entity tm = e)
      (λ tm, handle tm ∉ (map_to_list (unsub_track_same w)).*2)
      (timers w)) as Hle.
    rewrite decide_False by (cbn; tauto). lia.
Qed.

Lemma run_budget e w script :
  (length (jobs_of e (trace (run time_period cfg w script)))
   + length (filter (λ tm, t_entity tm = e)
               (timers (run time_period cfg w script)))
   ≤ length (jobs_of e (trace w))
     + length (filter (λ tm, t_entity tm = e) (timers w))
     + length (filter (enters_band cfg e) script))%nat.
Proof.
  revert w. induction script as [|i script IH]; intros w; [cbn; lia|].
  cbn [run foldl]. specialize (IH (step time_period cfg w i)).
  pose proof (step_budget e w i) as Hs. unfold run in IH.
  rewrite filter_cons. destruct (decide (enters_band cfg e i));
    cbn [length]; lia.
Qed.

(** X7. Whatever the run, no more actions were fired for an entity than
    matching changes of it were delivered. *)
Theorem at_most_one_action_per_match t sts script e :
  (length (jobs_of e (trace (run time_period cfg
                               (async_attach_trigger t sts) script)))
   ≤ length (filter (enters_band cfg e) script))%nat.
Proof.
  pose proof (run_budget e (async_attach_trigger t sts) script) as H.
  cbn in H. lia.
Qed.

End Beside.

(** ** Periods and failures *)

Section Periods.

Context (time_period : Rendered → option Z) (cfg : Config).

(** X8. While resolving the duration keeps failing in a way the listener
    catches (a template error, or a rendered value that is not read as a
    time span or is a negative one), every matching change of the entity
    logs one more error, and that is all: the entity is never armed, no
    timer is started and nothing is fired. *)
Theorem failing_resolution_logs_each_match e td
    (changes : list (option State * option State)) w :
  time_delta cfg = Some td → truthy (Some td) = true →
  (∀ sts, resolution_fails time_period td sts (trigger_variables cfg e)) →
  listening w = true → e ∈ entity_id cfg →
  e ∉ entities_triggered w →
  Forall (λ c, check_numeric_state cfg e c.1 c.2 = true) changes →
  let w' := run time_period cfg w
              ((λ c, StateChanged e c.1 c.2) <$> changes) in
  length (filter is_log_error (trace w'))
  = (length (filter is_log_error (trace w)) + length changes)%nat
  ∧ (e ∉ entities_triggered w')
  ∧ timers w' = timers w
  ∧ jobs (trace w') = jobs (trace w).
Proof.
  intros Htd Ht Hfail Hl Hin. revert w Hl.
  induction changes as [|[from_s to_s] changes IH]; intros w Hl Hnot Hc w'.
  { cbn. repeat split; [lia|done]. }
  apply Forall_cons in Hc as [Hc Hcs]. cbn [fst snd] in Hc.
  unfold w'. cbn [fmap list_fmap run foldl step fst snd].
  set (w1 := deliver time_period cfg e from_s to_s w).
  assert (w1 = mkWorld (now w) (states (write_state e to_s w)) (listening w)
         (timers w) (next_handle w) (entities_triggered w)
         (unsub_track_same w) (period w)
         ((now w, LogError (automation_name cfg))
            :: rendering td e (now w) ++ trace w)) as Hw1.
  { unfold w1. rewrite deliver_match by done.
    rewrite (listener_abort _ _ _ _ _ _ td); try done.
    apply try_resolve_caught, Hfail. }
  destruct (IH w1) as (Hlen & Hnot' & Htm & Hj);
    [by rewrite Hw1|by rewrite Hw1|done|].
  unfold run in *. cbn [fmap] in *.
  split; [|split; [done|split]].
  - rewrite Hlen, Hw1. cbn [trace length].
    rewrite filter_cons_True by done. cbn [length].
    unfold rendering. destruct (renders td); cbn [app]; [|lia].
    rewrite filter_cons_False by (cbn; tauto). lia.
  - by rewrite Htm, Hw1.
  - rewrite Hj, Hw1. cbn [trace]. unfold jobs, rendering.
    rewrite filter_cons_False by (cbn; tauto).
    destruct (renders td); cbn [app]; [|done].
    by rewrite filter_cons_False by (cbn; tauto).
Qed.

(** X9. Whatever the run, a same-state timer was started with the
    configured duration when that is fixed, and with a period that is not
    negative when it is a template. *)
Theorem timers_start_with_sound_period t sts script at_ h e d :
  (at_, TrackSameState h e d)
    ∈ trace (run time_period cfg (async_attach_trigger t sts) script) →
  match time_delta cfg with
  | Some (FixedDuration d0) => d = d0
  | _ => 0 ≤ d
  end.
Proof.
  intros Hin.
  destruct (attached_sound time_period cfg t sts script)
    as (_ & _ & _ & _ & Hf & _).
  rewrite Forall_forall in Hf. exact (Hf _ Hin).
Qed.


(** X11. Without a value template the check reads the state of the
    entity alone, and then, whatever the run, the present state of every
    armed entity matches the band while the subscription is alive.  (A
    value template may read other entities as well, whose changes this
    does not follow.) *)
Theorem armed_entities_match t sts script e :
  value_template cfg = None →
  let w := run time_period cfg (async_attach_trigger t sts) script in
  listening w = true → e ∈ entities_triggered w →
  check_numeric_state cfg e (states w !! e) (states w !! e) = true.
Proof.
  intros _ w Hl Hin.
  destruct (attached_sound time_period cfg t sts script)
    as (_ & _ & _ & _ & _ & _ & Ha).
  by apply Ha.
Qed.

End Periods.

(** ** From the start of a timer to its action *)

Section Timed.

Context (time_period : Rendered → option Z) (cfg : Config).

Lemma state_for_listener_keeps w tm x :
  x ∈ trace w → x ∈ trace (state_for_listener cfg w tm).
Proof.
  intros Hx. unfold state_for_listener.
  destruct (check_numeric_state cfg (t_entity tm) (states _ !! _) _);
    [|done].
  unfold call_action.
  destruct (if negb _ then _ else _); [destruct (t_to tm)|];
    cbn [trace emit set_now]; by apply list_elem_of_further.
Qed.

Lemma completions_keep l w x :
  x ∈ trace w → x ∈ trace (foldl (state_for_listener cfg) w l).
Proof.
  revert w. induction l as [|tm l IH]; intros w Hx; [done|].
  cbn [foldl]. by apply IH, state_for_listener_keeps.
Qed.

Lemma jobs_timed_keep x tr :
  jobs_timed tr →
  (∀ pl ctx d, x.2 = RunJob pl ctx → p_for pl = ForPeriod d →
     ∃ t0 h, (t0, TrackSameState h (p_entity_id pl) d) ∈ tr
       ∧ t0 + d ≤ x.1) →
  jobs_timed (x :: tr).
Proof.
  intros Htr Hx at_ pl ctx d Hin Hfor.
  apply elem_of_cons in Hin as [<-|Hin].
  - destruct (Hx pl ctx d eq_refl Hfor) as (t0 & h & Hin & Hle).
    exists t0, h. split; [by apply list_elem_of_further|done].
  - destruct (Htr at_ pl ctx d Hin Hfor) as (t0 & h & Hin' & Hle).
    exists t0, h. split; [by apply list_elem_of_further|done].
Qed.

Lemma jobs_timed_rendering td e t tr :
  jobs_timed tr → jobs_timed (rendering td e t ++ tr).
Proof.
  intros Htr. unfold rendering. destruct (renders td); [|done].
  cbn [app]. apply jobs_timed_keep; [done|]. by intros pl ctx d [=].
Qed.

Lemma step_timers_started w i :
  tracked w → timers_started w →
  timers_started (step time_period cfg w i).
Proof.
  intros Htr Hs. destruct i as [entity from_s to_s|t|]; cbn [step].
  - set (w2 := same_state_listeners cfg entity from_s to_s
                 (write_state entity to_s w)).
    assert (timers_started w2) as Hs2.
    { intros tm Htm. apply same_state_listeners_timers in Htm.
      by apply Hs. }
    assert (tracked w2) as Htr2.
    { intros tm Htm. apply same_state_listeners_timers in Htm.
      by apply Htr. }
    destruct (deliver_cases time_period cfg entity from_s to_s w)
      as [[_ ->]|(_ & _ & ->)]; fold w2; [done|].
    destruct (listener_cases time_period cfg entity from_s to_s w2)
      as [(Hc & ->)|[(Hc & _ & ->)|[(Hc & _ & Ht & st & -> & ->)
         |[(Hc & Hnin & td & p & Htd & Ht & Hpp & ->)
          |[(Hc & _ & td & Htd & Ht & Hpp & ->)
          |(Hc & _ & td & Htd & Ht & Hpp & ->)]]]]]; try done.
    + intros tm Htm. destruct (Hs2 tm Htm) as (t0 & p & Hp & Hin & Hd).
      exists t0, p. split; [done|]. split; [|done].
      by apply list_elem_of_further.
    + intros tm. cbn [timers period trace].
      rewrite elem_of_app, list_elem_of_singleton. intros [Htm| ->].
      * destruct (Hs2 tm Htm) as (t0 & p' & Hp & Hin & Hd).
        exists t0, p'. split; [|split; [|done]].
        -- rewrite lookup_insert_ne; [done|]. intros E. apply Hnin.
           rewrite E. by destruct (Htr2 tm Htm) as (_ & _ & ?).
        -- apply list_elem_of_further, elem_of_app. by right.
      * exists (now w2), p. cbn [t_entity handle deadline].
        split; [apply lookup_insert_eq|]. split; [|done].
        apply list_elem_of_here.
    + intros tm Htm. destruct (Hs2 tm Htm) as (t0 & p & Hp & Hin & Hd).
      exists t0, p. split; [done|]. split; [|done].
      cbn [trace]. apply list_elem_of_further, elem_of_app. by right.
    + intros tm Htm. destruct (Hs2 tm Htm) as (t0 & p & Hp & Hin & Hd).
      exists t0, p. split; [done|]. split; [|done].
      cbn [trace]. apply list_elem_of_further, elem_of_app. by right.
  - destruct (advance_to_frame cfg t w) as (_&_&Ht&_&_&_&Hp).
    intros tm. rewrite Ht, Hp, advance_to_trace, list_elem_of_filter.
    intros [_ Htm]. destruct (Hs tm Htm) as (t0 & p & Hp' & Hin & Hd).
    exists t0, p. split; [done|]. split; [|done].
    by apply completions_keep.
  - rewrite async_remove_eq. intros tm. cbn [timers period trace].
    rewrite list_elem_of_filter. intros [_ Htm]. by apply Hs.
Qed.

Lemma completions_timed l w :
  (∀ tm, tm ∈ l →
     ∃ t0 p, period w !! t_entity tm = Some p
       ∧ (t0, TrackSameState (handle tm) (t_entity tm) p) ∈ trace w
       ∧ deadline tm = t0 + p) →
  jobs_timed (trace w) →
  jobs_timed (trace (foldl (state_for_listener cfg) w l)).
Proof.
  revert w. induction l as [|tm l IH]; intros w Hl Hj; [done|].
  cbn [foldl]. apply IH.
  - pose proof (state_for_listener_frame cfg w tm) as (_&_&_&_&_&_&Hp).
    intros tm' Htm'.
    destruct (Hl tm') as (t0 & p & Hp' & Hin & Hd); [set_solver|].
    exists t0, p. rewrite Hp. split; [done|]. split; [|done].
    by apply state_for_listener_keeps.
  - destruct (Hl tm) as (t0 & p & Hp & Hin & Hd); [set_solver|].
    unfold state_for_listener.
    destruct (check_numeric_state cfg (t_entity tm) (states _ !! _) _);
      [|done].
    unfold call_action. cbn [period set_now]. rewrite Hp. cbn [fmap option_fmap option_map].
    destruct (negb (truthy (time_delta cfg))).
    + destruct (t_to tm); cbn [trace emit set_now now];
        (apply jobs_timed_keep; [done|]); by intros pl ctx d [= <- _].
    + cbn. destruct (t_to tm); cbn [trace emit set_now now];
        (apply jobs_timed_keep; [done|]); [|by intros pl ctx d [=]].
      intros pl ctx d [= <- _]. cbn. intros [= <-].
      exists t0, (handle tm). split; [done|]. lia.
Qed.

Lemma step_jobs_timed w i :
  timers_started w → jobs_timed (trace w) →
  jobs_timed (trace (step time_period cfg w i)).
Proof.
  intros Hs Hj. destruct i as [entity from_s to_s|t|]; cbn [step].
  - destruct (deliver_cases time_period cfg entity from_s to_s w)
      as [[_ ->]|(_ & _ & ->)]; [done|].
    destruct (listener_cases time_period cfg entity from_s to_s
                (same_state_listeners cfg entity from_s to_s
                   (write_state entity to_s w)))
      as [(Hc & ->)|[(Hc & _ & ->)|[(Hc & _ & Ht & st & -> & ->)
         |[(Hc & Hnin & td & p & Htd & Ht & Hpp & ->)
          |[(Hc & _ & td & Htd & Ht & Hpp & ->)
          |(Hc & _ & td & Htd & Ht & Hpp & ->)]]]]]; try done;
      cbn [trace emit set_entities_triggered same_state_listeners
           set_timers write_state set_states].
    + apply jobs_timed_keep; [done|]. by intros pl ctx d [= <- _].
    + apply jobs_timed_keep; [by apply jobs_timed_rendering|].
      by intros pl ctx d [=].
    + apply jobs_timed_keep; [by apply jobs_timed_rendering|].
      by intros pl ctx d [=].
    + apply jobs_timed_keep; [by apply jobs_timed_rendering|].
      by intros pl ctx d [=].
  - rewrite advance_to_trace. apply completions_timed; [|done].
    intros tm. rewrite merge_sort_Permutation, list_elem_of_filter.
    intros [_ Htm]. by apply Hs.
  - by rewrite async_remove_eq.
Qed.

Lemma run_timed w script :
  wf w → timers_started w → jobs_timed (trace w) →
  jobs_timed (trace (run time_period cfg w script)).
Proof.
  revert w. induction script as [|i script IH]; intros w Hwf Hs Hj; [done|].
  cbn [run foldl]. apply IH.
  - by apply step_wf.
  - apply step_timers_started; [apply Hwf|done].
  - by apply step_jobs_timed.
Qed.

(** X12. Whatever the run, an action that carries a period in its
    ["for"] was fired at least that period after a same-state timer with
    that very period was started for its entity. *)
Theorem fired_after_period t sts script at_ pl ctx d :
  (at_, RunJob pl ctx)
    ∈ trace (run time_period cfg (async_attach_trigger t sts) script) →
  p_for pl = ForPeriod d →
  ∃ t0 h,
    (t0, TrackSameState h (p_entity_id pl) d)
      ∈ trace (run time_period cfg (async_attach_trigger t sts) script)
    ∧ t0 + d ≤ at_.
Proof.
  apply run_timed.
  - apply wf_attach.
  - intros tm Htm. by apply elem_of_nil in Htm.
  - intros ? ? ? ? Hin. by apply elem_of_nil in Hin.
Qed.

End Timed.

(** ** The further properties at work on the scenarios *)

(** The first action of the readings 5, 15, 8, 20. *)
Lemma fired_payloads_are_sound_witness :
  let p := mkPayload "numeric_state" "sensor.t" None (Some (inject_Z 10))
             (Scenario.reading 5 0) (Scenario.reading 15 1)
             (ForConfigured None) in
  p_platform p = platform_type Scenario.above_10
  ∧ p_below p = below Scenario.above_10
  ∧ p_above p = above Scenario.above_10
  ∧ p_entity_id p ∈ entity_id Scenario.above_10
  ∧ ∃ st, p_to_state p = Some st ∧ 1%nat = context st
      ∧ check_numeric_state Scenario.above_10 (p_entity_id p)
          (p_from_state p) (Some st) = true.
Proof.
  intros p.
  apply (fired_payloads_are_sound Scenario.time_period Scenario.above_10
           0 ∅ Scenario.up_down_up 0 p 1%nat).
  vm_compute. apply list_elem_of_further, list_elem_of_here.
Defined.

(** The delay entity is not configured for the armed sensor. *)
Lemma unconfigured_entity_only_writes_state_witness :
  deliver Scenario.time_period Scenario.above_10_for_60 "input.delay"
    None (Scenario.reading 0 0) Scenario.armed
  = write_state "input.delay" (Scenario.reading 0 0) Scenario.armed.
Proof.
  apply (unconfigured_entity_only_writes_state Scenario.time_period
           Scenario.above_10_for_60 0 ∅
           [ StateChanged "sensor.t" (Scenario.reading 5 0)
               (Scenario.reading 15 1) ]
           "input.delay" None (Scenario.reading 0 0)).
  intros H. apply list_elem_of_singleton in H. discriminate H.
Defined.

(** A change of the delay entity beside the armed sensor. *)
Lemma entities_are_isolated_witness :
  entity_view "sensor.t"
    (deliver Scenario.time_period Scenario.above_10_for_60 "input.delay"
       None (Scenario.reading 0 0) Scenario.armed)
  = entity_view "sensor.t" Scenario.armed.
Proof.
  apply (entities_are_isolated Scenario.time_period
           Scenario.above_10_for_60 "input.delay" "sensor.t").
  discriminate.
Defined.

(** Two matching changes under a template that raises a template error
    each time: two errors logged. *)
Lemma failing_resolution_logs_each_match_witness :
  length (filter is_log_error
            (trace (run Scenario.time_period
                      Scenario.above_10_for_broken_template Scenario.start
                      [ StateChanged "sensor.t" (Scenario.reading 5 0)
                          (Scenario.reading 15 1);
                        StateChanged "sensor.t" (Scenario.reading 15 1)
                          (Scenario.reading 16 2) ])))
  = 2%nat.
Proof.
  destruct (failing_resolution_logs_each_match Scenario.time_period
              Scenario.above_10_for_broken_template "sensor.t"
              (DynamicExpression (λ _ _, RaisesTemplateError))
              [ (Scenario.reading 5 0, Scenario.reading 15 1);
                (Scenario.reading 15 1, Scenario.reading 16 2) ]
              Scenario.start)
    as (H & _).
  - reflexivity.
  - reflexivity.
  - intros sts. left. reflexivity.
  - reflexivity.
  - apply list_elem_of_here.
  - apply not_elem_of_empty.
  - repeat constructor.
  - exact H.
Defined.

(** The timer of the armed sensor was started with the configured 60. *)
Lemma timers_start_with_sound_period_witness :
  match time_delta Scenario.above_10_for_60 with
  | Some (FixedDuration d0) => 60 = d0
  | _ => 0 ≤ 60
  end.
Proof.
  apply (timers_start_with_sound_period Scenario.time_period
           Scenario.above_10_for_60 0 ∅
           [ StateChanged "sensor.t" (Scenario.reading 5 0)
               (Scenario.reading 15 1) ]
           0 0%nat "sensor.t" 60).
  vm_compute. apply list_elem_of_here.
Defined.

(** The armed sensor reads 15, above 10. *)
Lemma armed_entities_match_witness :
  check_numeric_state Scenario.above_10_for_60 "sensor.t"
    (states Scenario.armed !! "sensor.t")
    (states Scenario.armed !! "sensor.t") = true.
Proof.
  apply (armed_entities_match Scenario.time_period
           Scenario.above_10_for_60 0 ∅
           [ StateChanged "sensor.t" (Scenario.reading 5 0)
               (Scenario.reading 15 1) ]
           "sensor.t").
  - reflexivity.
  - reflexivity.
  - apply armed_is_armed.
Defined.

(** The action fired at 60 with the period 60 in its payload: its timer
    was started no later than 0. *)
Lemma fired_after_period_witness :
  ∃ t0 h,
    (t0, TrackSameState h "sensor.t" 60)
      ∈ trace (run Scenario.time_period Scenario.above_10_for_60
                 Scenario.start Scenario.drift_in_band)
    ∧ t0 + 60 ≤ 60.
Proof.
  apply (fired_after_period Scenario.time_period Scenario.above_10_for_60
           0 ∅ Scenario.drift_in_band 60
           (mkPayload "numeric_state" "sensor.t" None (Some (inject_Z 10))
              (Scenario.reading 5 0) (Scenario.reading 15 1) (ForPeriod 60))
           1%nat 60).
  - vm_compute. apply list_elem_of_here.
  - reflexivity.
Defined.
